(** * Entrolytics React SDK

  A shallow embedding of the tracker-availability bridge and dispatch
  API of the provider ([context.tsx]), the script loader effect, the
  zero-config [Analytics] component, and the direct-HTTP trackers
  ([useFormTracking], [useWebVitals]), followed by the properties the
  specification states about them.

  JavaScript objects live in a store and are passed by reference, so that
  a mutation such as [payload.tag = ...] is seen through every alias.
  Closures handed to [waitForTracker] are defunctionalised: one
  constructor per closure, carrying the variables it captures. *)

From Stdlib Require Import ZArith Permutation Ascii String.
From stdpp Require Import gmap strings list fin_maps.

Open Scope string_scope.
Open Scope list_scope.
Open Scope nat_scope.

(** ** JavaScript values *)

Module JS.

Abbreviation loc := positive.

(** Numbers are integers here: the embedded code subtracts millisecond
    timestamps and otherwise only moves numbers around. *)
Inductive value :=
| VUndef
| VNull
| VBool (b : bool)
| VNum (n : Z)
| VStr (s : string)
| VRef (l : loc).

#[global] Instance value_eq_dec : EqDecision value.
Proof. solve_decision. Defined.

Abbreviation obj := (gmap string value).
Abbreviation heap := (gmap loc obj).

(** ToBoolean, as used by [if (x)], [x || y], [x ? a : b] and [!x]. *)
Definition truthy (v : value) : bool :=
  match v with
  | VUndef | VNull => false
  | VBool b => b
  | VNum n => negb (n =? 0)%Z
  | VStr s => negb (String.eqb s "")
  | VRef _ => true
  end.

(** [a || b] *)
Definition or_else (a b : value) : value := if truthy a then a else b.

(** An optional parameter [x?: string] / [x?: EventData]. *)
Definition of_opt_str (o : option string) : value := from_option VStr VUndef o.
Definition of_opt_ref (o : option loc) : value := from_option VRef VUndef o.

(** The own properties copied by [...x] in an object literal; spreading
    [undefined] copies nothing. *)
Definition spread (h : heap) (x : option loc) : obj :=
  match x with
  | Some l => default ∅ (h !! l)
  | None => ∅
  end.

End JS.

(** ** Tracker bridge and dispatch API (context.tsx) *)

Module Bridge.
Import JS.

(** [beforeSend(type, payload)]: user code that may allocate and mutate
    objects and returns the transformed payload or [null]. *)
Definition beforeSend_fn := string → value → heap → value * heap.

(** Calls received by the injected script's global object. *)
Inductive tracker_call :=
| Track (eventNameOrObject : value) (eventData : value)
| Identify (data : value).

(** The closures passed to [waitForTracker], with their captured variables. *)
Inductive callback :=
| TrackCb (beforeSend : option beforeSend_fn) (eventName : string) (eventData : option loc)
| TrackPageViewCb (url referrer : option string)
| TrackRevenueCb (eventName : string) (revenue : Z) (currency : string) (data : option loc)
| TrackOutboundLinkCb (url : string) (data : option loc)
| IdentifyCb (data : loc)
| IdentifyUserCb (userId : string) (traits : option loc).

Record World := mkWorld {
  has_window : bool;                      (* typeof window !== 'undefined' *)
  entrolytics : bool;                     (* window.entrolytics is defined *)
  store : heap;                           (* the objects *)
  tagRef : option string;                 (* tagRef.current *)
  timers : list callback;                 (* pending setTimeout(tryExecute, 100), oldest first *)
  calls : list (tracker_call * heap);     (* what window.entrolytics received, and the store it saw *)
  invoked : list callback;                (* ghost: callbacks run by tryExecute, in order *)
  transformed : list (string * value);    (* ghost: beforeSend invocations, in order *)
  uncaught : list string                  (* errors that reached the top of a task *)
}.

Definition set_entrolytics b w :=
  mkWorld (has_window w) b (store w) (tagRef w) (timers w) (calls w) (invoked w) (transformed w) (uncaught w).
Definition set_store h w :=
  mkWorld (has_window w) (entrolytics w) h (tagRef w) (timers w) (calls w) (invoked w) (transformed w) (uncaught w).
Definition set_tagRef t w :=
  mkWorld (has_window w) (entrolytics w) (store w) t (timers w) (calls w) (invoked w) (transformed w) (uncaught w).
Definition set_timers ts w :=
  mkWorld (has_window w) (entrolytics w) (store w) (tagRef w) ts (calls w) (invoked w) (transformed w) (uncaught w).
Definition set_calls cs w :=
  mkWorld (has_window w) (entrolytics w) (store w) (tagRef w) (timers w) cs (invoked w) (transformed w) (uncaught w).
Definition set_invoked cs w :=
  mkWorld (has_window w) (entrolytics w) (store w) (tagRef w) (timers w) (calls w) cs (transformed w) (uncaught w).
Definition set_transformed ts w :=
  mkWorld (has_window w) (entrolytics w) (store w) (tagRef w) (timers w) (calls w) (invoked w) ts (uncaught w).
Definition set_uncaught es w :=
  mkWorld (has_window w) (entrolytics w) (store w) (tagRef w) (timers w) (calls w) (invoked w) (transformed w) es.

(** *** State and exception monad *)

Inductive outcome (A : Type) :=
| Normal (a : A)
| Throws (e : string).
Arguments Normal {A} a.
Arguments Throws {A} e.

Definition M (A : Type) := World → outcome A * World.

Definition ret {A} (a : A) : M A := fun w => (Normal a, w).

Definition bind {A B} (m : M A) (k : A → M B) : M B := fun w =>
  match m w with
  | (Normal a, w') => k a w'
  | (Throws e, w') => (Throws e, w')
  end.

(** stdpp's monad notations: [x ← m; k] and [m;; k]. *)
#[global] Instance M_ret : MRet M := @ret.
#[global] Instance M_bind : MBind M := λ A B k m, bind m k.

(** *** Primitive operations *)

(** An object literal: a fresh object. *)
Definition new_object (o : obj) : M value := fun w =>
  let l := fresh (dom (store w)) in
  (Normal (VRef l), set_store (<[l := o]> (store w)) w).

(** [target[k] = v]. The module is strict-mode code: assigning a property
    on [undefined], [null] or a primitive throws. *)
Definition set_prop (target : value) (k : string) (v : value) : M unit := fun w =>
  match target with
  | VRef l =>
      (Normal tt, set_store (<[l := <[k := v]> (default ∅ (store w !! l))]> (store w)) w)
  | _ => (Throws "TypeError", w)
  end.

Definition read_tagRef : M value := fun w => (Normal (of_opt_str (tagRef w)), w).

Definition read_store : M heap := fun w => (Normal (store w), w).

Definition call_beforeSend (f : beforeSend_fn) (type : string) (payload : value) : M value :=
  fun w =>
    let '(r, h) := f type payload (store w) in
    (Normal r, set_store h (set_transformed (transformed w ++ [(type, payload)]) w)).

(** [window.entrolytics?.track(a, b)] *)
Definition entrolytics_track (a b : value) : M unit := fun w =>
  (Normal tt,
   if entrolytics w then set_calls (calls w ++ [(Track a b, store w)]) w else w).

(** [window.entrolytics?.identify(d)] *)
Definition entrolytics_identify (d : value) : M unit := fun w =>
  (Normal tt,
   if entrolytics w then set_calls (calls w ++ [(Identify d, store w)]) w else w).

Definition setTimeout_tryExecute (cb : callback) : M unit := fun w =>
  (Normal tt, set_timers (timers w ++ [cb]) w).

(** *** The closure bodies *)

(** The end of [track]'s closure: stamp the tag, call the tracker. *)
Definition stamp_and_forward (payload : value) (eventName : string) (eventData : option loc)
  : M unit :=
  tag ← read_tagRef;
  (if truthy tag then set_prop payload "tag" tag else ret tt);;
  entrolytics_track (VStr eventName) (of_opt_ref eventData).

(** [{ name: eventName, data: eventData }] *)
Definition event_payload (eventName : string) (eventData : option loc) : obj :=
  <["data" := of_opt_ref eventData]> {["name" := VStr eventName]}.

Definition track_body (beforeSend : option beforeSend_fn)
    (eventName : string) (eventData : option loc) : M unit :=
  payload ← new_object (event_payload eventName eventData);
  match beforeSend with
  | Some f =>
      payload ← call_beforeSend f "event" payload;
      match payload with
      | VNull => ret tt
      | _ => stamp_and_forward payload eventName eventData
      end
  | None => stamp_and_forward payload eventName eventData
  end.

Definition trackPageView_body (url referrer : option string) : M unit :=
  payload ← new_object ∅;
  (if truthy (of_opt_str url) then set_prop payload "url" (of_opt_str url) else ret tt);;
  (if truthy (of_opt_str referrer)
   then set_prop payload "referrer" (of_opt_str referrer) else ret tt);;
  tag ← read_tagRef;
  (if truthy tag then set_prop payload "tag" tag else ret tt);;
  entrolytics_track payload VUndef.

Definition trackRevenue_body (eventName : string) (revenue : Z) (currency : string)
    (data : option loc) : M unit :=
  h ← read_store;
  eventData ← new_object
    (<["currency" := VStr currency]> (<["revenue" := VNum revenue]> (spread h data)));
  tag ← read_tagRef;
  (if truthy tag then set_prop eventData "tag" tag else ret tt);;
  entrolytics_track (VStr eventName) eventData.

Definition trackOutboundLink_body (url : string) (data : option loc) : M unit :=
  h ← read_store;
  eventData ← new_object (<["url" := VStr url]> (spread h data));
  entrolytics_track (VStr "outbound-link-click") eventData.

Definition identify_body (data : loc) : M unit :=
  entrolytics_identify (VRef data).

(** [{ id: userId, ...traits }]: the spread comes last, so an [id] entry
    of [traits] replaces [userId]. *)
Definition identifyUser_body (userId : string) (traits : option loc) : M unit :=
  h ← read_store;
  d ← new_object (spread h traits ∪ {["id" := VStr userId]});
  entrolytics_identify d.

Definition run_callback (cb : callback) : M unit :=
  match cb with
  | TrackCb bs n d => track_body bs n d
  | TrackPageViewCb u r => trackPageView_body u r
  | TrackRevenueCb n r c d => trackRevenue_body n r c d
  | TrackOutboundLinkCb u d => trackOutboundLink_body u d
  | IdentifyCb d => identify_body d
  | IdentifyUserCb u t => identifyUser_body u t
  end.

(** *** waitForTracker *)

Definition tryExecute (callback : callback) : M unit := fun w =>
  if entrolytics w
  then run_callback callback (set_invoked (invoked w ++ [callback]) w)
  else setTimeout_tryExecute callback w.

Definition waitForTracker (callback : callback) : M unit := fun w =>
  if negb (has_window w) then (Normal tt, w) else tryExecute callback w.

(** *** The context functions *)

Definition track (beforeSend : option beforeSend_fn) (eventName : string)
    (eventData : option loc) : M unit :=
  waitForTracker (TrackCb beforeSend eventName eventData).

Definition trackPageView (url referrer : option string) : M unit :=
  waitForTracker (TrackPageViewCb url referrer).

(** [currency = 'USD']: the default replaces an omitted or [undefined] argument. *)
Definition trackRevenue (eventName : string) (revenue : Z) (currency : option string)
    (data : option loc) : M unit :=
  waitForTracker (TrackRevenueCb eventName revenue (default "USD" currency) data).

Definition trackOutboundLink (url : string) (data : option loc) : M unit :=
  waitForTracker (TrackOutboundLinkCb url data).

Definition identify (data : loc) : M unit :=
  waitForTracker (IdentifyCb data).

Definition identifyUser (userId : string) (traits : option loc) : M unit :=
  waitForTracker (IdentifyUserCb userId traits).

Definition setTag (newTag : string) : M unit := fun w =>
  (Normal tt, set_tagRef (Some newTag) w).

(** [useTrackRevenue]'s wrapper applies the same default and delegates. *)
Definition useTrackRevenue (eventName : string) (revenue : Z) (currency : option string)
    (data : option loc) : M unit :=
  trackRevenue eventName revenue (Some (default "USD" currency)) data.

(** *** The event loop *)

Inductive api :=
| ATrack (eventName : string) (eventData : option loc)
| ATrackPageView (url referrer : option string)
| ATrackRevenue (eventName : string) (revenue : Z) (currency : option string) (data : option loc)
| ATrackOutboundLink (url : string) (data : option loc)
| AIdentify (data : loc)
| AIdentifyUser (userId : string) (traits : option loc)
| ASetTag (newTag : string).

Inductive event :=
| Call (a : api)       (* application code calls a context function *)
| TimerFires           (* the oldest pending 100 ms timer expires *)
| TrackerLoads.        (* the injected script defines window.entrolytics *)

(** Runs one task to completion; an error that escapes it is reported and
    the loop goes on. *)
Definition task (m : M unit) (w : World) : World :=
  match m w with
  | (Normal _, w') => w'
  | (Throws e, w') => set_uncaught (uncaught w' ++ [e]) w'
  end.

Definition fire_timer (w : World) : World :=
  match timers w with
  | [] => w
  | cb :: rest => task (tryExecute cb) (set_timers rest w)
  end.

Section Provider.
(** The [beforeSend] prop of the mounted provider. *)
Variable beforeSend : option beforeSend_fn.

Definition dispatch (a : api) : M unit :=
  match a with
  | ATrack n d => track beforeSend n d
  | ATrackPageView u r => trackPageView u r
  | ATrackRevenue n r c d => trackRevenue n r c d
  | ATrackOutboundLink u d => trackOutboundLink u d
  | AIdentify d => identify d
  | AIdentifyUser u t => identifyUser u t
  | ASetTag t => setTag t
  end.

Definition step (w : World) (e : event) : World :=
  match e with
  | Call a => task (dispatch a) w
  | TimerFires => fire_timer w
  | TrackerLoads => set_entrolytics true w
  end.

Definition run (es : list event) (w : World) : World := foldl step w es.
End Provider.

(** A browser page right after the provider mounted with prop [tag], with
    the caller's objects in [h]. *)
Definition mounted (tag : option string) (h : heap) : World :=
  mkWorld true false h tag [] [] [] [] [].

(** *** Predicates and pages used in the statements *)

(** What a callback leaves alone: it neither schedules timers nor touches
    the tracker's presence or the tag. *)
Definition same_control (w w' : World) : Prop :=
  has_window w' = has_window w ∧ entrolytics w' = entrolytics w ∧
  timers w' = timers w ∧ invoked w' = invoked w ∧ tagRef w' = tagRef w.

(** The world without the log of invocations, which no closure body can
    read or write: what is left is the tracker's log, the objects, the
    transform's log, the errors, the timers and the tag. *)
Definition observed (w : World) : World := set_invoked [] w.

(** A page still waiting for the script, one where it is loaded, and a
    render without browser globals. *)
Definition waiting_page : World := mounted None ∅.
Definition loaded_page : World := set_entrolytics true (mounted None ∅).
Definition server_render : World := mkWorld false false ∅ None [] [] [] [] [].

(** A transform that drops every event. *)
Definition drop_all : beforeSend_fn := λ _ _ h, (VNull, h).

(** A page whose application holds the object [{a: 1}] at reference 1. *)
Definition page_with_data : World := mounted None {[ 1%positive := {[ "a" := VNum 1 ]} ]}.

(** The tag is stamped when [tagRef.current] is truthy, that is a
    non-empty string. *)
Definition with_tag (tag : option string) (o : obj) : obj :=
  match tag with
  | Some t => if String.eqb t "" then o else <["tag" := VStr t]> o
  | None => o
  end.

(** The specification's example: the caller's data is [{sku: 'abc'}]. *)
Definition shop_page : World :=
  set_entrolytics true (mounted None {[ 1%positive := {[ "sku" := VStr "abc" ]} ]}).

(** The last mapping handed to [identify] has an [id] field equal to
    [userId]. *)
Definition delivers_id (userId : string) (w : World) : Prop :=
  ∃ l h o, last (calls w) = Some (Identify (VRef l), h) ∧ h !! l = Some o ∧
           o !! "id" = Some (VStr userId).

(** A page with the script loaded whose application holds [{id: 'other'}]. *)
Definition profile_page : World :=
  set_entrolytics true (mounted None {[ 1%positive := {[ "id" := VStr "other" ]} ]}).

End Bridge.

(** ** Script loader: the injection effect of [EntrolyticsProvider] *)

Module Loader.
Import JS.

Definition DEFAULT_HOST : string := "https://ng.entrolytics.click".
Definition SCRIPT_ID : string := "entrolytics-script".

Record element := mkElement {
  tagName : string;
  id : string;
  src : string;
  defer : bool;
  dataset : gmap string string;
  onload : bool                     (* the provider's load handler is attached *)
}.

(** The behavioural flags of [EntrolyticsConfig], optional props as options. *)
Record Flags := mkFlags {
  autoTrack : option bool;
  respectDnt : option bool;
  domains : option (list string);
  useEdgeRuntime : option bool;
  tag : option string;
  excludeSearch : option bool;
  excludeHash : option bool
}.

(** [EntrolyticsProviderProps], as far as the injection effect reads them. *)
Record ProviderProps := mkProps {
  websiteId : string;
  host : option string;
  flags : Flags
}.

(** The document: the children of [document.head], then every other
    element in tree order. Without browser globals there is none. *)
Record Document := mkDocument {
  has_window : bool;
  head : list element;
  body : list element
}.

(** The provider instance's [isReady] state and [isLoadedRef.current]. *)
Record Instance := mkInstance {
  isReady : bool;
  isLoadedRef : bool
}.

Definition has_id (i : string) (e : element) : bool := String.eqb (id e) i.

Definition getElementById (i : string) (d : Document) : option element :=
  find (has_id i) (head d ++ body d).

Fixpoint remove_first (i : string) (l : list element) : list element :=
  match l with
  | [] => []
  | e :: rest => if has_id i e then rest else e :: remove_first i rest
  end.

(** [document.getElementById(i)?.remove()] *)
Definition remove_by_id (i : string) (d : Document) : Document :=
  if existsb (has_id i) (head d)
  then mkDocument (has_window d) (remove_first i (head d)) (body d)
  else mkDocument (has_window d) (head d) (remove_first i (body d)).

(** How many elements carry the id [i]. *)
Definition count_in (i : string) (l : list element) : nat :=
  length (filter (λ e, has_id i e = true) l).

Definition count_id (i : string) (d : Document) : nat :=
  count_in i (head d ++ body d).

(** [host.replace(/\/$/, '')]: drops one trailing slash. *)
Fixpoint strip_trailing_slash (s : string) : string :=
  match s with
  | EmptyString => EmptyString
  | String c EmptyString => if Ascii.eqb c "/"%char then EmptyString else s
  | String c rest => String c (strip_trailing_slash rest)
  end.

Definition set_if (b : bool) (k v : string) (m : gmap string string) : gmap string string :=
  if b then <[k := v]> m else m.

(** The script element the effect builds before appending it. *)
Definition build_script (p : ProviderProps) : element :=
  let f := flags p in
  let scriptPath := if default true (useEdgeRuntime f) then "/script-edge.js" else "/script.js" in
  let d0 : gmap string string := {[ "websiteId" := websiteId p ]} in
  let d1 := set_if (negb (default true (autoTrack f))) "autoTrack" "false" d0 in
  let d2 := set_if (default false (respectDnt f)) "doNotTrack" "true" d1 in
  let d3 := match domains f with
            | Some (x :: xs) => <["domains" := String.concat "," (x :: xs)]> d2
            | _ => d2
            end in
  let d4 := match tag f with
            | Some t => set_if (negb (String.eqb t "")) "tag" t d3
            | None => d3
            end in
  let d5 := set_if (default false (excludeSearch f)) "excludeSearch" "true" d4 in
  let d6 := set_if (default false (excludeHash f)) "excludeHash" "true" d5 in
  mkElement "script" SCRIPT_ID
    (strip_trailing_slash (default DEFAULT_HOST (host p)) +:+ scriptPath) true d6 true.

(** The effect's cleanup function. *)
Definition cleanup (d : Document) : Document := remove_by_id SCRIPT_ID d.

(** The injection effect. It answers the document, the instance state and
    whether it returned a cleanup function. *)
Definition inject (p : ProviderProps) (d : Document) (s : Instance)
  : Document * Instance * bool :=
  if negb (has_window d) then (d, s, false)
  else match getElementById SCRIPT_ID d with
       | Some _ => (d, mkInstance true true, false)
       | None =>
           (mkDocument (has_window d) (head d ++ [build_script p]) (body d), s, true)
       end.

(** [script.onload] *)
Definition script_onload (s : Instance) : Instance := mkInstance true true.

(** What happens to the document over the life of the page: some provider
    runs its effect, or some effect's cleanup runs. *)
Inductive lifecycle :=
| Mount (p : ProviderProps)
| Cleanup.

Definition apply_lifecycle (d : Document) (l : lifecycle) : Document :=
  match l with
  | Mount p => (inject p d (mkInstance false false)).1.1
  | Cleanup => cleanup d
  end.

(** *** Pages used in the statements *)

Definition no_flags : Flags := mkFlags None None None None None None None.

Definition some_props : ProviderProps := mkProps "site-1" None no_flags.

(** A page on which a first provider has already injected the script. *)
Definition page_after_first_mount : Document :=
  (inject some_props (mkDocument true [] []) (mkInstance false false)).1.1.

End Loader.

(** ** The zero-config [Analytics] component *)

Module Analytics.
Import JS.

(** [import.meta.env] *)
Record ImportMetaEnv := mkImportMetaEnv {
  DEV : bool;
  vite_vars : gmap string string
}.

Record Env := mkEnv {
  has_window : bool;
  window_process_env : option (gmap string string);   (* window.process?.env *)
  import_meta_env : option ImportMetaEnv               (* import.meta.env *)
}.

(** [AnalyticsProps]: [websiteId], [host] and the rest of the configuration. *)
Record AnalyticsProps := mkAnalyticsProps {
  websiteId : option string;
  host : option string;
  config : Loader.Flags           (* the remaining props, passed on as they are *)
}.

(** [a || b] on optional strings. *)
Definition or_str (a b : option string) : option string :=
  if truthy (of_opt_str a) then a else b.

Definition missing_id_warning : string :=
  "[Entrolytics] Missing environment variable. Add one of the following to your .env file:" +:+
  String (Ascii.ascii_of_nat 10) "  - Create React App: REACT_APP_ENTROLYTICS_WEBSITE_ID" +:+
  String (Ascii.ascii_of_nat 10) "  - Vite: VITE_ENTROLYTICS_WEBSITE_ID" +:+
  String (Ascii.ascii_of_nat 10) "Or pass websiteId as a prop.".

(** [(globalThis as any).process?.env || {}], where [globalThis] is
    [window] or, without browser globals, an empty object. *)
Definition processEnv (env : Env) : gmap string string :=
  if has_window env then default ∅ (window_process_env env) else ∅.

(** [(import.meta as any).env || {}] *)
Definition importMetaEnv (env : Env) : gmap string string :=
  from_option vite_vars ∅ (import_meta_env env).

(** [processEnv.NODE_ENV === 'development' || importMetaEnv.DEV] *)
Definition isDev (env : Env) : bool :=
  bool_decide (processEnv env !! "NODE_ENV" = Some "development")
  || from_option DEV false (import_meta_env env).

(** The component: what it renders ([None] is [null], otherwise the props
    of the [EntrolyticsProvider] element) and what it writes with
    [console.warn]. *)
Definition Analytics (props : AnalyticsProps) (env : Env)
  : option Loader.ProviderProps * list string :=
  let finalWebsiteId :=
    or_str (or_str (websiteId props) (processEnv env !! "REACT_APP_ENTROLYTICS_WEBSITE_ID"))
           (importMetaEnv env !! "VITE_ENTROLYTICS_WEBSITE_ID") in
  let finalHost :=
    or_str (or_str (host props) (processEnv env !! "REACT_APP_ENTROLYTICS_HOST"))
           (importMetaEnv env !! "VITE_ENTROLYTICS_HOST") in
  let isDev := isDev env in
  if isDev && negb (truthy (of_opt_str finalWebsiteId))
  then (None, [missing_id_warning])
  else if negb (truthy (of_opt_str finalWebsiteId))
  then (None, [])
  else (Some (Loader.mkProps (default "" finalWebsiteId) finalHost (config props)), []).

(** Rendering the component into a page: a [null] render mounts nothing,
    a provider element mounts the provider, whose effect then runs. *)
Definition render_into (props : AnalyticsProps) (env : Env) (d : Loader.Document)
  : Loader.Document :=
  match (Analytics props env).1 with
  | None => d
  | Some p => (Loader.inject p d (Loader.mkInstance false false)).1.1
  end.

(** *** Configurations used in the statements *)

(** An optional string that is absent or empty: falsy. *)
Definition unset (o : option string) : Prop := o = None ∨ o = Some "".

Definition bare_props : AnalyticsProps :=
  mkAnalyticsProps None None Loader.no_flags.

(** A Vite development server with no Entrolytics variable configured. *)
Definition vite_dev : Env :=
  mkEnv true None (Some (mkImportMetaEnv true {[ "MODE" := "development" ]})).

End Analytics.

(** ** Direct-HTTP trackers: the browser they run in *)

Module Http.
Import JS.

(** How one [fetch] call ends. *)
Inductive fetch_result :=
| Responds                     (* the promise fulfils *)
| ThrowsSync (err : string)   (* [fetch] itself throws *)
| RejectsLater (err : string). (* the promise rejects *)

Record request := mkRequest {
  url : string;
  method : string;
  keepalive : bool;
  body : obj          (* the object given to JSON.stringify, undefined entries dropped *)
}.

Record Browser := mkBrowser {
  has_window : bool;
  pathname : string;                   (* window.location.pathname *)
  href : string;                       (* window.location.href *)
  clock : nat → Z;                     (* the value of the k-th Date.now() *)
  ticks : nat;                         (* Date.now() calls so far *)
  network : nat → fetch_result;        (* how the k-th fetch ends *)
  requests : list request;             (* fetch calls so far *)
  console_error : list (string * string)
}.

Definition set_ticks n b :=
  mkBrowser (has_window b) (pathname b) (href b) (clock b) n (network b) (requests b)
    (console_error b).
Definition set_requests rs b :=
  mkBrowser (has_window b) (pathname b) (href b) (clock b) (ticks b) (network b) rs
    (console_error b).
Definition set_console_error es b :=
  mkBrowser (has_window b) (pathname b) (href b) (clock b) (ticks b) (network b)
    (requests b) es.

Definition Date_now (b : Browser) : Z * Browser := (clock b (ticks b), set_ticks (S (ticks b)) b).

(** How a block of code ends, and how a promise settles. *)
Inductive completion (A : Type) :=
| Returns (a : A)
| Raises (err : string).
Arguments Returns {A} a.
Arguments Raises {A} err.

Inductive promise :=
| Fulfilled
| Rejected (err : string).

(** [JSON.stringify] leaves out the properties whose value is [undefined]. *)
Definition json_object (o : obj) : obj := filter (λ kv, kv.2 ≠ VUndef) o.

(** [fetch(url, {method: 'POST', headers, body: JSON.stringify(o), keepalive: true})] *)
Definition fetch_post (u : string) (o : obj) (b : Browser) : completion promise * Browser :=
  let b' := set_requests (requests b ++ [mkRequest u "POST" true (json_object o)]) b in
  match network b (length (requests b)) with
  | Responds => (Returns Fulfilled, b')
  | ThrowsSync e => (Raises e, b')
  | RejectsLater e => (Returns (Rejected e), b')
  end.

(** [await p] *)
Definition await (p : promise) : completion unit :=
  match p with
  | Fulfilled => Returns tt
  | Rejected e => Raises e
  end.

(** [try { await fetch(...) } catch (err) { console.error(msg, err) }] *)
Definition try_post_or_log (u : string) (o : obj) (msg : string) (b : Browser)
  : completion unit * Browser :=
  let '(c, b') := fetch_post u o b in
  let c' := match c with Returns p => await p | Raises e => Raises e end in
  match c' with
  | Returns _ => (Returns tt, b')
  | Raises err => (Returns tt, set_console_error (console_error b' ++ [(msg, err)]) b')
  end.

(** An [async] function: its body's completion settles the promise it
    returns; the call itself never throws. *)
Definition async (body : Browser → completion unit * Browser) (b : Browser)
  : promise * Browser :=
  match body b with
  | (Returns _, b') => (Fulfilled, b')
  | (Raises e, b') => (Rejected e, b')
  end.

(** The [config] read from the provider's context. *)
Record Config := mkConfig {
  websiteId : string;
  host : option string
}.

(** *** Predicates and browsers used in the statements *)

(** What a failed POST leaves on the console, and nothing when it succeeds. *)
Definition logged (msg : string) (b b' : Browser) : Prop :=
  match network b (length (requests b)) with
  | Responds => console_error b' = console_error b
  | ThrowsSync e | RejectsLater e => console_error b' = console_error b ++ [(msg, e)]
  end.

Definition site : Config := mkConfig "site-1" None.

(** A browser whose every request fails: the first [fetch] throws, the
    later ones reject. *)
Definition offline : Browser :=
  mkBrowser true "/signup" "https://example.com/signup" (λ k, 1000 * Z.of_nat k)%Z 0
    (λ k, match k with 0 => ThrowsSync "TypeError" | _ => RejectsLater "NetworkError" end)
    [] [].

(** A browser with a working network. *)
Definition online : Browser :=
  mkBrowser true "/signup" "https://example.com/signup" (λ k, 1000 * Z.of_nat k + 5)%Z 0
    (λ _, Responds) [] [].

End Http.

(** ** Form tracking ([useFormTracking]) *)

Module Forms.
Import JS Http.

Record Options := mkOptions {
  formId : string;
  formName : option string;
  autoTrack : bool;
  trackTiming : bool;
  trackAbandonment : bool
}.

Record FormState := mkFormState {
  startTime : option Z;
  fieldStartTimes : gmap string Z;
  hasInteracted : bool;
  lastFieldName : option string
}.

Definition initial_state : FormState := mkFormState None ∅ false None.

(** [o.k] *)
Definition get (o : obj) (k : string) : value := default VUndef (o !! k).

(** [n ? Date.now() - n : undefined] for [n : number | null | undefined] *)
Definition since (t : option Z) (b : Browser) : value * Browser :=
  match t with
  | Some n =>
      if truthy (VNum n)
      then let '(now, b') := Date_now b in (VNum (now - n), b')
      else (VUndef, b)
  | None => (VUndef, b)
  end.

Section Hook.
Variable config : Config.
Variable options : Options.

Definition trackEvent (data : obj) : Browser → promise * Browser :=
  async (λ b,
    if negb (has_window b) then (Returns tt, b)
    else
      let host := if truthy (of_opt_str (Http.host config))
                  then default "" (Http.host config) else "https://entrolytics.click" in
      let payload : obj :=
        data ∪
        <["urlPath" := or_else (get data "urlPath") (VStr (pathname b))]>
          (<["formName" := or_else (get data "formName") (of_opt_str (formName options))]>
             {["formId" := or_else (get data "formId") (VStr (formId options))]}) in
      try_post_or_log (host +:+ "/api/collect/forms")
        (payload ∪ {["website" := VStr (websiteId config)]})
        "[Entrolytics] Failed to track form event:" b).

(** The promise of a [trackEvent] call is dropped by every caller below. *)
Definition fire (data : obj) (b : Browser) : Browser := (trackEvent data b).2.

Definition trackStart (s : FormState) (b : Browser) : FormState * Browser :=
  match startTime s with
  | Some _ => (s, b)
  | None =>
      let '(now, b1) := Date_now b in
      (mkFormState (Some now) (fieldStartTimes s) (hasInteracted s) (lastFieldName s),
       fire {["eventType" := VStr "start"]} b1)
  end.

Definition trackFieldFocus (fieldName : string) (fieldType : option string)
    (fieldIndex : option Z) (s : FormState) (b : Browser) : FormState * Browser :=
  let '(s1, b1) :=
    if negb (hasInteracted s)
    then trackStart
           (mkFormState (startTime s) (fieldStartTimes s) true (lastFieldName s)) b
    else (s, b) in
  let '(s2, b2) :=
    if trackTiming options
    then let '(now, b') := Date_now b1 in
         (mkFormState (startTime s1) (<[fieldName := now]> (fieldStartTimes s1))
            (hasInteracted s1) (lastFieldName s1), b')
    else (s1, b1) in
  let s3 := mkFormState (startTime s2) (fieldStartTimes s2) (hasInteracted s2)
              (Some fieldName) in
  let '(timeSinceStart, b3) := since (startTime s3) b2 in
  (s3, fire (<["timeSinceStart" := timeSinceStart]>
              (<["fieldIndex" := from_option VNum VUndef fieldIndex]>
                 (<["fieldType" := of_opt_str fieldType]>
                    (<["fieldName" := VStr fieldName]>
                       {["eventType" := VStr "field_focus"]})))) b3).

Definition trackFieldBlur (fieldName : string) (fieldType : option string)
    (fieldIndex : option Z) (s : FormState) (b : Browser) : FormState * Browser :=
  let '(timeOnField, b1) := since (fieldStartTimes s !! fieldName) b in
  let '(timeSinceStart, b2) := since (startTime s) b1 in
  (s, fire (<["timeSinceStart" := timeSinceStart]>
             (<["timeOnField" := timeOnField]>
                (<["fieldIndex" := from_option VNum VUndef fieldIndex]>
                   (<["fieldType" := of_opt_str fieldType]>
                      (<["fieldName" := VStr fieldName]>
                         {["eventType" := VStr "field_blur"]}))))) b2).

Definition trackFieldError (fieldName errorMessage : string) (fieldType : option string)
    (fieldIndex : option Z) (s : FormState) (b : Browser) : FormState * Browser :=
  let '(timeSinceStart, b1) := since (startTime s) b in
  (s, fire (<["timeSinceStart" := timeSinceStart]>
             (<["errorMessage" := VStr errorMessage]>
                (<["fieldIndex" := from_option VNum VUndef fieldIndex]>
                   (<["fieldType" := of_opt_str fieldType]>
                      (<["fieldName" := VStr fieldName]>
                         {["eventType" := VStr "field_error"]}))))) b1).

Definition trackSubmit (success : bool) (s : FormState) (b : Browser) : FormState * Browser :=
  let '(timeSinceStart, b1) := since (startTime s) b in
  (initial_state,
   fire (<["timeSinceStart" := timeSinceStart]>
          (<["success" := VBool success]> {["eventType" := VStr "submit"]})) b1).

Definition trackAbandon (s : FormState) (b : Browser) : FormState * Browser :=
  if negb (hasInteracted s) then (s, b)
  else
    let fieldName :=
      if truthy (of_opt_str (lastFieldName s)) then of_opt_str (lastFieldName s) else VUndef in
    let '(timeSinceStart, b1) := since (startTime s) b in
    (s, fire (<["timeSinceStart" := timeSinceStart]>
               (<["fieldName" := fieldName]> {["eventType" := VStr "abandon"]})) b1).

(** [handleBeforeUnload] *)
Definition handleBeforeUnload (s : FormState) (b : Browser) : FormState * Browser :=
  if hasInteracted s && truthy (from_option VNum VNull (startTime s))
  then trackAbandon s b
  else (s, b).

(** What can happen to a form within one session, that is short of a submit. *)
Inductive interaction :=
| Focus (fieldName : string) (fieldType : option string) (fieldIndex : option Z)
| Blur (fieldName : string) (fieldType : option string) (fieldIndex : option Z)
| Error (fieldName errorMessage : string) (fieldType : option string) (fieldIndex : option Z)
| Start                    (* the application calls trackStart itself *)
| Abandon
| BeforeUnload.

Definition interact (sb : FormState * Browser) (i : interaction) : FormState * Browser :=
  match i with
  | Focus n t k => trackFieldFocus n t k sb.1 sb.2
  | Blur n t k => trackFieldBlur n t k sb.1 sb.2
  | Error n m t k => trackFieldError n m t k sb.1 sb.2
  | Start => trackStart sb.1 sb.2
  | Abandon => trackAbandon sb.1 sb.2
  | BeforeUnload => handleBeforeUnload sb.1 sb.2
  end.

Definition session (acts : list interaction) (sb : FormState * Browser)
  : FormState * Browser :=
  foldl interact sb acts.

End Hook.

(** The event types of the requests sent so far, oldest first. *)
Definition event_types (b : Browser) : list value :=
  map (λ r, get (body r) "eventType") (requests b).

(** *** Predicates used in the statements *)

(** How many ['start'] events have been sent. *)
Definition starts (b : Browser) : nat :=
  length (filter (λ t, t = VStr "start") (event_types b)).

Definition started (s : FormState) : Prop := is_Some (startTime s).

(** A handler that keeps the session state and sends the events [ts]. *)
Definition sends (ts : list value) (s : FormState) (b : Browser)
    (sb : FormState * Browser) : Prop :=
  sb.1 = s ∧ has_window sb.2 = has_window b ∧
  event_types sb.2 = event_types b ++ (if has_window b then ts else []).

Definition signup_form : Options := mkOptions "signup" None true true true.

End Forms.

(** ** Web vitals ([useWebVitals]) *)

Module Vitals.
Import JS Http.

Record WebVitalData := mkWebVitalData {
  metric : string;
  value : Z;
  rating : string;
  delta : option Z;
  id : option string;
  navigationType : option string;
  attribution : JS.value
}.

Definition trackVital (config : Config) (data : WebVitalData) : Browser → promise * Browser :=
  async (λ b,
    if negb (has_window b) then (Returns tt, b)
    else
      let host := if truthy (of_opt_str (Http.host config))
                  then default "" (Http.host config) else "https://ng.entrolytics.click" in
      let payload : obj :=
        <["path" := VStr (pathname b)]>
          (<["url" := VStr (href b)]>
             (<["attribution" := attribution data]>
                (<["navigationType" := of_opt_str (navigationType data)]>
                   (<["id" := of_opt_str (id data)]>
                      (<["delta" := from_option VNum VUndef (delta data)]>
                         (<["rating" := VStr (rating data)]>
                            (<["value" := VNum (value data)]>
                               (<["metric" := VStr (metric data)]>
                                  {["website" := VStr (websiteId config)]})))))))) in
      try_post_or_log (host +:+ "/api/collect/vitals") payload
        "[Entrolytics] Failed to track vital:" b).

End Vitals.

(** ** Callers of the dispatch API ([OutboundLink], [TrackClick],
       [useTrackPageView]) *)

Module Callers.
Import JS Bridge.

(** An object literal whose reference the caller passes on. *)
Definition alloc_object (o : obj) : M loc := fun w =>
  let l := fresh (dom (store w)) in
  (Normal l, set_store (<[l := o]> (store w)) w).

(** [OutboundLink]'s click handler: [track(event, { url: href, ...data })],
    then the caller's own [onClick], if any. [event] defaults to
    ['outbound_link']. *)
Definition OutboundLink_handleClick (beforeSend : option beforeSend_fn) (href : string)
    (event : option string) (data : option loc) (onClick : option (M unit)) : M unit :=
  h ← read_store;
  eventData ← alloc_object (spread h data ∪ {["url" := VStr href]});
  track beforeSend (default "outbound_link" event) (Some eventData);;
  match onClick with
  | Some f => f
  | None => ret tt
  end.

(** [TrackClick]'s click handler: [track(event, data)], then the child's own
    [onClick], if any. *)
Definition TrackClick_handleClick (beforeSend : option beforeSend_fn) (event : string)
    (data : option loc) (onClick : option (M unit)) : M unit :=
  track beforeSend event data;;
  match onClick with
  | Some f => f
  | None => ret tt
  end.

(** The effect of [useTrackPageView(url, referrer)]; [prevUrlRef.current]
    is threaded beside the world, and is written before the dispatch. *)
Definition useTrackPageView_effect (url : string) (referrer : option string)
    (prevUrlRef : option string) (w : World) : option string * World :=
  if bool_decide (prevUrlRef = Some url) then (prevUrlRef, w)
  else (Some url, task (trackPageView (Some url) referrer) w).

(** The effect run after each of a sequence of renders. *)
Definition renders (rs : list (string * option string)) (st : option string * World)
  : option string * World :=
  foldl (λ st r, useTrackPageView_effect r.1 r.2 st.1 st.2) st rs.

(** *** Notions used in the statements *)

(** An optional string field: written only when the string is given and
    non-empty. *)
Definition opt_field (k : string) (x : option string) (o : obj) : obj :=
  match x with
  | Some s => if String.eqb s "" then o else <[k := VStr s]> o
  | None => o
  end.

(** The closure a context function hands to [waitForTracker]; [setTag]
    hands none. *)
Definition closure (beforeSend : option beforeSend_fn) (a : api) : option callback :=
  match a with
  | ATrack n d => Some (TrackCb beforeSend n d)
  | ATrackPageView u r => Some (TrackPageViewCb u r)
  | ATrackRevenue n r c d => Some (TrackRevenueCb n r (default "USD" c) d)
  | ATrackOutboundLink u d => Some (TrackOutboundLinkCb u d)
  | AIdentify d => Some (IdentifyCb d)
  | AIdentifyUser u t => Some (IdentifyUserCb u t)
  | ASetTag _ => None
  end.

(** The renders of a sequence at which the url differs from the one before. *)
Fixpoint url_changes (prev : option string) (rs : list (string * option string))
  : list (string * option string) :=
  match rs with
  | [] => []
  | r :: rest =>
      if bool_decide (prev = Some r.1) then url_changes prev rest
      else r :: url_changes (Some r.1) rest
  end.

(** A transform that answers [undefined] and touches nothing. *)
Definition answer_undefined : beforeSend_fn := λ _ _ h, (VUndef, h).

(** A page waiting for the script, with tag ['beta'] configured. *)
Definition tagged_page : World := mounted (Some "beta") ∅.

(** A closure that involves no transform. *)
Definition plain (cb : callback) : Prop :=
  match cb with
  | TrackCb (Some _) _ _ => False
  | _ => True
  end.

(** What stays as it is while calls are only queued. *)
Definition untouched (w w' : World) : Prop :=
  has_window w' = has_window w ∧ entrolytics w' = entrolytics w ∧
  store w' = store w ∧ calls w' = calls w ∧ invoked w' = invoked w ∧
  transformed w' = transformed w ∧ uncaught w' = uncaught w.

(** What the transform answers when [track]'s closure runs in [w]. *)
Definition transform_answer (f : beforeSend_fn) (n : string) (d : option loc) (w : World)
  : value :=
  (f "event" (VRef (fresh (dom (store w))))
     (<[fresh (dom (store w)) := event_payload n d]> (store w))).1.

(** How many closures have been handed to [waitForTracker] and not lost:
    those run and those still waiting. *)
Definition handed_over (w : World) : nat := length (invoked w) + length (timers w).


End Callers.

(** ** Form tracking: the auto-track listeners and a form's whole life *)

Module AutoTrack.
Import JS Http Forms.

(** A form control as the listeners read it; [node] is its identity. A
    property the element does not have reads as the empty string here, which
    is as falsy as [undefined]. *)
Record Control := mkControl {
  node : nat;
  name : string;
  id : string;
  type : string;
  tagName : string
}.

(** [String.prototype.toLowerCase] on the ASCII letters of a tag name. *)
Definition lower (c : ascii) : ascii :=
  let n := nat_of_ascii c in
  if (65 <=? n) && (n <=? 90) then ascii_of_nat (n + 32) else c.

Fixpoint toLowerCase (s : string) : string :=
  match s with
  | EmptyString => EmptyString
  | String c rest => String (lower c) (toLowerCase rest)
  end.

(** [fields.indexOf(target)], counting from [k]; [None] stands for -1,
    which the listeners turn into [undefined]. *)
Fixpoint indexOf (fields : list Control) (target : Control) (k : Z) : option Z :=
  match fields with
  | [] => None
  | f :: rest => if Nat.eqb (node f) (node target) then Some k
                 else indexOf rest target (k + 1)
  end.

Section Hook.
Variable config : Config.
Variable options : Options.
(** [Array.from(form.elements)] *)
Variable elements : list Control.

Definition fieldName (target : Control) : string :=
  if truthy (VStr (name target)) then name target else id target.

Definition fieldType (target : Control) : string :=
  if truthy (VStr (type target)) then type target else toLowerCase (tagName target).

Definition handleFocus (target : Control) (s : FormState) (b : Browser)
  : FormState * Browser :=
  if negb (truthy (VStr (name target))) && negb (truthy (VStr (id target))) then (s, b)
  else trackFieldFocus config options (fieldName target) (Some (fieldType target))
         (indexOf elements target 0) s b.

Definition handleBlur (target : Control) (s : FormState) (b : Browser)
  : FormState * Browser :=
  if negb (truthy (VStr (name target))) && negb (truthy (VStr (id target))) then (s, b)
  else trackFieldBlur config options (fieldName target) (Some (fieldType target))
         (indexOf elements target 0) s b.

(** Everything that can happen to a mounted form. *)
Inductive action :=
| Do (i : interaction)
| FocusIn (target : Control)
| FocusOut (target : Control)
| Submit (success : bool).

Definition act (sb : FormState * Browser) (a : action) : FormState * Browser :=
  match a with
  | Do i => interact config options sb i
  | FocusIn t => handleFocus t sb.1 sb.2
  | FocusOut t => handleBlur t sb.1 sb.2
  | Submit ok => trackSubmit config options ok sb.1 sb.2
  end.

Definition lifetime (acts : list action) (sb : FormState * Browser) : FormState * Browser :=
  foldl act sb acts.

(** *** Notions used in the statements *)

(** [`${host}/api/collect/forms`] with the hook's fallback host. *)
Definition forms_endpoint : string :=
  (if truthy (of_opt_str (Http.host config))
   then default "" (Http.host config) else "https://entrolytics.click")
  +:+ "/api/collect/forms".

(** A request that goes to the forms endpoint and names the site, the form
    and the page [path]. *)
Definition addressed (path : string) (r : request) : Prop :=
  url r = forms_endpoint ∧ method r = "POST" ∧ keepalive r = true ∧
  body r !! "website" = Some (VStr (websiteId config)) ∧
  body r !! "formId" = Some (VStr (formId options)) ∧
  body r !! "urlPath" = Some (VStr path).

(** The network log only grows, by requests addressed as above, and not at
    all without browser globals; the page and the clock stay the same. *)
Definition grows (b b' : Browser) : Prop :=
  pathname b' = pathname b ∧ has_window b' = has_window b ∧ clock b' = clock b ∧
  ticks b ≤ ticks b' ∧
  ∃ rs, requests b' = requests b ++ rs ∧ Forall (addressed (pathname b)) rs ∧
        (has_window b = false → rs = []).

End Hook.

(** The last request sent. *)
Definition last_body (b : Browser) : obj := from_option body ∅ (last (requests b)).

(** A control with an id and no name. *)
Definition email_input : Control := mkControl 7 "" "email" "" "INPUT".

End AutoTrack.

(** ** Web vitals: the auto-initialising effect and the endpoint *)

Module VitalsInit.
Import JS Http.







(** [`${host}/api/collect/vitals`] with the hook's fallback host. *)
Definition vitals_endpoint (config : Config) : string :=
  (if truthy (of_opt_str (Http.host config))
   then default "" (Http.host config) else "https://ng.entrolytics.click")
  +:+ "/api/collect/vitals".

End VitalsInit.

(** ** Configurations and pages used in the statements *)

Module Pages.
Import JS Analytics.

(** The first of a list of optional strings that is given and non-empty. *)
Fixpoint first_set (l : list (option string)) : option string :=
  match l with
  | [] => None
  | x :: rest => if truthy (of_opt_str x) then x else first_set rest
  end.

(** A Create React App page in development that also carries a Vite
    variable. *)
Definition cra_page : Env :=
  mkEnv true (Some {[ "REACT_APP_ENTROLYTICS_WEBSITE_ID" := "from-cra";
                      "NODE_ENV" := "development" ]})
        (Some (mkImportMetaEnv true {[ "VITE_ENTROLYTICS_WEBSITE_ID" := "from-vite" ]})).

(** A browser page without the script. *)
Definition plain_page : Loader.Document :=
  Loader.mkDocument true [Loader.mkElement "meta" "" "" false ∅ false]
                  [Loader.mkElement "div" "root" "" false ∅ false].

End Pages.

(** ** Properties of the bridge *)

Module BridgeProps.
Import JS Bridge.

Ltac unfold_bodies :=
  unfold run_callback, track_body, stamp_and_forward, trackPageView_body,
    trackRevenue_body, trackOutboundLink_body, identify_body, identifyUser_body,
    mbind, M_bind, bind, new_object, set_prop, read_tagRef, read_store,
    call_beforeSend, entrolytics_track, entrolytics_identify, ret.

Ltac reduce_world :=
  cbn beta iota delta [fst snd has_window entrolytics store tagRef timers calls invoked
    transformed uncaught set_entrolytics set_store set_tagRef set_timers set_calls
    set_invoked set_transformed set_uncaught].

Ltac crunch :=
  unfold_bodies; reduce_world; repeat (case_match; simplify_eq; reduce_world); auto.

Lemma run_callback_control cb w : same_control w (run_callback cb w).2.
Proof. unfold same_control. destruct cb; crunch. Qed.

Lemma tryExecute_absent cb w :
  entrolytics w = false → tryExecute cb w = (Normal tt, set_timers (timers w ++ [cb]) w).
Proof. intros H. unfold tryExecute, setTimeout_tryExecute. by rewrite H. Qed.

Lemma task_tryExecute_present cb w :
  entrolytics w = true →
  same_control (set_invoked (invoked w ++ [cb]) w) (task (tryExecute cb) w).
Proof.
  intros H. unfold task, tryExecute. rewrite H.
  pose proof (run_callback_control cb (set_invoked (invoked w ++ [cb]) w)) as C.
  destruct (run_callback cb _) as [[u|e] w']; simpl in *; exact C.
Qed.

(** One poll while the tracker is missing re-arms the timer and runs nothing. *)
Lemma fire_timer_absent w :
  entrolytics w = false →
  let w' := fire_timer w in
  entrolytics w' = false ∧ invoked w' = invoked w ∧ calls w' = calls w ∧
  timers w' ≡ₚ timers w.
Proof.
  intros H. unfold fire_timer. destruct (timers w) as [|cb rest] eqn:E; simpl.
  - by rewrite E.
  - unfold task. rewrite tryExecute_absent by done. simpl.
    repeat split; auto. exact (Permutation_app_comm rest [cb]).
Qed.

Lemma polls_absent n w :
  entrolytics w = false →
  let w' := Nat.iter n fire_timer w in
  entrolytics w' = false ∧ invoked w' = invoked w ∧ calls w' = calls w ∧
  timers w' ≡ₚ timers w.
Proof.
  intros H. induction n as [|n IH]; simpl; [done|].
  destruct IH as (A & B & C & D).
  destruct (fire_timer_absent _ A) as (A' & B' & C' & D').
  repeat split; [done|congruence|congruence|by rewrite D'].
Qed.

(** One poll once the tracker is there runs the oldest waiting callback and
    re-arms nothing. *)
Lemma fire_timer_present w :
  entrolytics w = true →
  let w' := fire_timer w in
  entrolytics w' = true ∧ invoked w' = invoked w ++ take 1 (timers w) ∧
  timers w' = drop 1 (timers w).
Proof.
  intros H. unfold fire_timer. destruct (timers w) as [|cb rest] eqn:E; simpl.
  - rewrite E, app_nil_r. done.
  - destruct (task_tryExecute_present cb (set_timers rest w) H) as (_ & A & B & C & _).
    simpl in *. rewrite drop_0, take_0. repeat split; congruence.
Qed.

Lemma take_succ_drop {A} (l : list A) n : take (S n) l = take n l ++ take 1 (drop n l).
Proof.
  revert l. induction n as [|n IH]; intros [|x l]; simpl; rewrite ?take_0; try done.
  f_equal. apply IH.
Qed.

Lemma polls_present n w :
  entrolytics w = true →
  let w' := Nat.iter n fire_timer w in
  entrolytics w' = true ∧ invoked w' = invoked w ++ take n (timers w) ∧
  timers w' = drop n (timers w).
Proof.
  intros H. induction n as [|n IH]; simpl.
  - rewrite take_0, app_nil_r, drop_0. done.
  - destruct IH as (A & B & C).
    destruct (fire_timer_present _ A) as (A' & B' & C').
    split; [done|]. split.
    + rewrite B', B, C, (take_succ_drop (timers w) n), app_assoc. done.
    + rewrite C', C, drop_drop. f_equal. lia.
Qed.

Lemma task_waitForTracker cb w :
  has_window w = true → task (waitForTracker cb) w = task (tryExecute cb) w.
Proof. intros H. unfold task, waitForTracker. by rewrite H. Qed.

Lemma world_fields w :
  mkWorld (has_window w) (entrolytics w) (store w) (tagRef w) (timers w) (calls w)
    (invoked w) (transformed w) (uncaught w) = w.
Proof. by destruct w. Qed.

(** No closure body reads or writes the log of invocations. *)
Lemma run_callback_invoked cb l w :
  run_callback cb (set_invoked l w) =
  ((run_callback cb w).1, set_invoked l (run_callback cb w).2).
Proof.
  destruct cb as [[f|] n d|u r|n r c d|u d|d|u t];
    unfold_bodies; reduce_world;
    repeat (case_match; simplify_eq; reduce_world); done.
Qed.

Lemma task_run_callback_invoked cb l w :
  task (run_callback cb) (set_invoked l w) = set_invoked l (task (run_callback cb) w).
Proof.
  unfold task. rewrite run_callback_invoked.
  by destruct (run_callback cb w) as [[[]|e] w'].
Qed.

Lemma task_tryExecute_body cb w :
  entrolytics w = true →
  task (tryExecute cb) w = set_invoked (invoked w ++ [cb]) (task (run_callback cb) w).
Proof.
  intros H. rewrite <- task_run_callback_invoked. unfold task, tryExecute. by rewrite H.
Qed.

Lemma fire_timer_idle w : timers w = [] → fire_timer w = w.
Proof. intros H. unfold fire_timer. by rewrite H. Qed.

Lemma polls_idle m w : timers w = [] → Nat.iter m fire_timer w = w.
Proof.
  intros H. induction m as [|m IH]; [done|]. simpl. rewrite IH. by apply fire_timer_idle.
Qed.

Lemma fire_timer_waiting w :
  entrolytics w = false →
  set_timers [] (fire_timer w) = set_timers [] w.
Proof.
  intros H. unfold fire_timer. destruct (timers w) as [|cb rest]; [done|].
  unfold task. by rewrite tryExecute_absent.
Qed.

Lemma polls_waiting n w :
  entrolytics w = false →
  set_timers [] (Nat.iter n fire_timer w) = set_timers [] w.
Proof.
  intros H. induction n as [|n IH]; [done|]. simpl.
  rewrite fire_timer_waiting; [done|].
  by destruct (polls_absent n w H) as (A & _).
Qed.

Lemma queue_emptied cb w :
  timers w = [] → set_timers [] (set_timers [cb] w) = w.
Proof. destruct w. simpl. by intros ->. Qed.

(** C4. [waitForTracker(callback)]: without browser globals it returns at
    once, leaving the world as it was (nothing is scheduled, so nothing can
    ever run the callback). With the tracker already present the call leaves
    the world that running the callback's body once, there and then, leaves,
    and schedules nothing. With the tracker missing, any number [n] of polls
    changes nothing but the timer queue, where this callback stays pending;
    once the tracker is present the polls run the pending callbacks in
    order, the queue emptying as they go, and when this callback was the only
    one pending the world after any positive number of polls is the one that
    running its body exactly once in the loaded page leaves. *)
Theorem waitForTracker_spec (callback : callback) (w : World) :
  (has_window w = false → waitForTracker callback w = (Normal tt, w)) ∧
  (has_window w = true → entrolytics w = true →
     let w' := task (waitForTracker callback) w in
     observed w' = observed (task (run_callback callback) w) ∧
     invoked w' = invoked w ++ [callback] ∧ timers w' = timers w) ∧
  (has_window w = true → entrolytics w = false → ∀ n m,
     let w1 := Nat.iter n fire_timer (task (waitForTracker callback) w) in
     let w2 := Nat.iter m fire_timer (set_entrolytics true w1) in
     (set_timers [] w1 = set_timers [] w ∧ timers w1 ≡ₚ timers w ++ [callback]) ∧
     (invoked w2 = invoked w ++ take m (timers w1) ∧
      timers w2 = drop m (timers w1)) ∧
     (timers w = [] → 0 < m →
      observed w2 = observed (task (run_callback callback) (set_entrolytics true w)) ∧
      invoked w2 = invoked w ++ [callback] ∧ timers w2 = [])).
Proof.
  split; [|split].
  - intros H. unfold waitForTracker. by rewrite H.
  - intros Hw He. cbv zeta. rewrite task_waitForTracker by done.
    destruct (task_tryExecute_present callback w He) as (_ & _ & A & B & _).
    split; [|done]. by rewrite task_tryExecute_body.
  - intros Hw He n m.
    set (w0 := task (waitForTracker callback) w).
    assert (E0 : w0 = set_timers (timers w ++ [callback]) w).
    { unfold w0. rewrite task_waitForTracker by done.
      unfold task. by rewrite tryExecute_absent. }
    assert (He0 : entrolytics w0 = false) by (by rewrite E0).
    destruct (polls_absent n w0 He0) as (A & B & C & D).
    pose proof (polls_waiting n w0 He0) as F.
    set (w1 := Nat.iter n fire_timer w0) in *.
    assert (P : entrolytics (set_entrolytics true w1) = true) by done.
    destruct (polls_present m _ P) as (_ & B2 & C2). simpl in B2, C2.
    assert (I1 : invoked w1 = invoked w) by (by rewrite B, E0).
    split; [|split].
    + split; [by rewrite F, E0|]. by rewrite D, E0.
    + simpl. rewrite B2, C2, I1. done.
    + intros Ht Hm.
      assert (T : timers w1 = [callback]).
      { apply Permutation_singleton_r. rewrite D, E0. simpl. by rewrite Ht. }
      split; [|simpl; rewrite B2, C2, I1, T; destruct m as [|m]; [lia|];
               simpl; by rewrite take_nil, drop_nil].
      assert (W1 : w1 = set_timers [callback] w).
      { rewrite <- (world_fields w1), T. rewrite E0 in F.
        apply (f_equal has_window) in F as F1. apply (f_equal entrolytics) in F as F2.
        apply (f_equal store) in F as F3. apply (f_equal tagRef) in F as F4.
        apply (f_equal calls) in F as F5. apply (f_equal invoked) in F as F6.
        apply (f_equal transformed) in F as F7. apply (f_equal uncaught) in F as F8.
        simpl in *. unfold set_timers. congruence. }
      destruct m as [|m]; [lia|]. cbv zeta.
      assert (Ff : fire_timer (set_entrolytics true w1) =
                   task (tryExecute callback) (set_entrolytics true w)).
      { rewrite W1.
        transitivity (task (tryExecute callback)
                        (set_timers [] (set_timers [callback] (set_entrolytics true w))));
          [done|]. by rewrite queue_emptied. }
      rewrite Nat.iter_succ_r, Ff.
      rewrite task_tryExecute_body by done.
      rewrite polls_idle; [done|].
      destruct (run_callback_control callback (set_entrolytics true w)) as (_ & _ & Tm & _).
      unfold task. destruct (run_callback callback _) as [[[]|e] wx]; simpl in *; congruence.
Qed.

Lemma waitForTracker_spec_witness :
  let cb := TrackPageViewCb (Some "/home") None in
  let now := task (waitForTracker cb) loaded_page in
  let early := Nat.iter 3 fire_timer (task (waitForTracker cb) waiting_page) in
  let late := Nat.iter 2 fire_timer (set_entrolytics true early) in
  waitForTracker cb server_render = (Normal tt, server_render) ∧
  (invoked now = [cb] ∧ length (calls now) = 1) ∧
  (invoked early = [] ∧ calls early = []) ∧
  (invoked late = [cb] ∧ length (calls late) = 1).
Proof.
  intros cb now early late.
  pose proof (waitForTracker_spec cb server_render) as (S & _ & _).
  pose proof (waitForTracker_spec cb loaded_page) as (_ & L & _).
  pose proof (waitForTracker_spec cb waiting_page) as (_ & _ & W).
  split; [exact (S eq_refl)|].
  destruct (L eq_refl eq_refl) as (L1 & L2 & _).
  destruct (W eq_refl eq_refl 3 2) as ((W1 & _) & _ & W3).
  destruct (W3 eq_refl ltac:(lia)) as (W4 & W5 & _).
  split; [split; [exact L2 | exact (f_equal (λ x, length (calls x)) L1)]|].
  split; [split; [exact (f_equal invoked W1) | exact (f_equal calls W1)]|].
  split; [exact W5 | exact (f_equal (λ x, length (calls x)) W4)].
Defined.






(** C1, at the input where the code departs from it: [track('x', {a: 1})],
    then [setTag('T')], then the script loads and the poll fires. The tag is
    read when the callback runs and is written on the local payload object
    (reference 2), but the tracker is handed [eventName] and the caller's
    [eventData] (reference 1), which carries no tag. *)
Theorem track_late_tag_not_delivered :
  let w := run None [Call (ATrack "x" (Some 1%positive)); Call (ASetTag "T");
                     TrackerLoads; TimerFires] page_with_data in
  calls w = [(Track (VStr "x") (VRef 1%positive), store w)] ∧
  store w !! 1%positive = Some {[ "a" := VNum 1 ]} ∧
  store w !! 2%positive = Some (<["tag" := VStr "T"]> (event_payload "x" (Some 1%positive))).
Proof. intros w. split; [|split]; vm_compute; reflexivity. Qed.

Lemma fresh_unused (h : heap) : h !! fresh (dom h) = None.
Proof. apply not_elem_of_dom, is_fresh. Qed.

Lemma fresh_other (h : heap) l : l ∈ dom h → fresh (dom h) ≠ l.
Proof. intros H E. subst l. by apply (is_fresh (dom h)). Qed.

(** Without a transform, what reaches the tracker is the event name and the
    caller's own [eventData] reference, and no object of the caller has been
    touched: the tag goes to the payload object only. *)
Lemma track_forwards_arguments n d w :
  entrolytics w = true →
  let w' := (run_callback (TrackCb None n d) w).2 in
  calls w' = calls w ++ [(Track (VStr n) (of_opt_ref d), store w')] ∧
  ∀ l, l ∈ dom (store w) → store w' !! l = store w !! l.
Proof.
  intros He. unfold_bodies. reduce_world.
  destruct (truthy (of_opt_str (tagRef w))); reduce_world; rewrite He; reduce_world.
  - split; [done|]. intros l Hl. pose proof (fresh_other _ _ Hl).
    by rewrite !lookup_insert_ne.
  - split; [done|]. intros l Hl. pose proof (fresh_other _ _ Hl).
    by rewrite lookup_insert_ne.
Qed.

(** Only [track]'s closure calls the transform. *)
Lemma only_track_transforms cb w :
  (∀ bs n d, cb ≠ TrackCb bs n d) →
  transformed (run_callback cb w).2 = transformed w.
Proof. intros H. destruct cb; [by destruct (H beforeSend eventName eventData)|..]; crunch. Qed.

(** In [track], the transform runs first: when the call reaches the
    tracker, the transform has been invoked on the fresh payload. *)
Lemma track_transforms_first f n d w :
  transformed (run_callback (TrackCb (Some f) n d) w).2 =
  transformed w ++ [("event", VRef (fresh (dom (store w))))].
Proof. crunch. Qed.

(** C2, at inputs where the code departs from it: with a transform
    configured, a page view, a revenue event, an outbound link, an identify
    and an identifyUser all reach the tracker, and the transform has not been
    invoked once (here it would have dropped every one of them). *)
Theorem other_dispatches_skip_beforeSend :
  let w := run (Some drop_all)
             [TrackerLoads; Call (ATrackPageView (Some "/home") None);
              Call (ATrackRevenue "purchase" 10 None None);
              Call (ATrackOutboundLink "https://example.com" None);
              Call (AIdentify 1%positive); Call (AIdentifyUser "u1" None)]
             page_with_data in
  transformed w = [] ∧
  map fst (calls w) =
    [Track (VRef 2%positive) VUndef; Track (VStr "purchase") (VRef 3%positive);
     Track (VStr "outbound-link-click") (VRef 4%positive);
     Identify (VRef 1%positive); Identify (VRef 5%positive)] ∧
  store w !! 2%positive = Some {[ "url" := VStr "/home" ]}.
Proof. intros w. split; [|split]; vm_compute; reflexivity. Qed.

(** C6. With the currency omitted, [trackRevenue] (and the
    [useTrackRevenue] wrapper) waits for the tracker with a closure holding
    currency ['USD']; when that closure runs, the tracker receives the event
    name and one fresh object: the caller's data with [revenue] and
    [currency: 'USD'] written over it, and the current tag when one is set. *)
Theorem trackRevenue_default_currency (eventName : string) (revenue : Z)
    (data : option loc) (w : World) :
  entrolytics w = true →
  trackRevenue eventName revenue None data =
    waitForTracker (TrackRevenueCb eventName revenue "USD" data) ∧
  useTrackRevenue eventName revenue None data =
    waitForTracker (TrackRevenueCb eventName revenue "USD" data) ∧
  let w' := task (tryExecute (TrackRevenueCb eventName revenue "USD" data)) w in
  ∃ l, store w !! l = None ∧
       calls w' = calls w ++ [(Track (VStr eventName) (VRef l), store w')] ∧
       store w' !! l =
         Some (with_tag (tagRef w)
                 (<["currency" := VStr "USD"]>
                    (<["revenue" := VNum revenue]> (spread (store w) data)))).
Proof.
  intros He. split; [done|]. split; [done|].
  exists (fresh (dom (store w))). split; [apply fresh_unused|].
  unfold task, tryExecute. rewrite He. unfold_bodies. reduce_world.
  unfold with_tag, of_opt_str, truthy.
  destruct (tagRef w) as [t|]; simpl; [destruct (String.eqb t ""); simpl|];
    rewrite He; reduce_world; rewrite ?lookup_insert_eq; simpl; done.
Qed.

Lemma trackRevenue_default_currency_witness :
  let w' := task (trackRevenue "purchase" 10 None (Some 1%positive)) shop_page in
  ∃ l, store shop_page !! l = None ∧
       calls w' = [(Track (VStr "purchase") (VRef l), store w')] ∧
       store w' !! l =
         Some (<["currency" := VStr "USD"]>
                 (<["revenue" := VNum 10]> {[ "sku" := VStr "abc" ]})).
Proof.
  exact (proj2 (proj2
    (trackRevenue_default_currency "purchase" 10 (Some 1%positive) shop_page eq_refl))).
Defined.

(** C7 as stated fails: [identifyUser('u1', {id: 'other'})] hands
    [{id: 'other'}] to the tracker, because the spread of [traits] comes
    after [id: userId]. *)
Lemma identifyUser_traits_id_wins :
  ¬ delivers_id "u1" (task (identifyUser "u1" (Some 1%positive)) profile_page).
Proof.
  set (w' := task (identifyUser "u1" (Some 1%positive)) profile_page).
  assert (E1 : last (calls w') = Some (Identify (VRef 2%positive), store w'))
    by (vm_compute; reflexivity).
  assert (E2 : store w' !! 2%positive = Some ({[ "id" := VStr "other" ]} : obj))
    by (vm_compute; reflexivity).
  clearbody w'. intros (l & h & o & H1 & H2 & H3).
  rewrite E1 in H1. injection H1 as <- <-.
  rewrite E2 in H2. injection H2 as <-.
  rewrite lookup_singleton_eq in H3. discriminate H3.
Qed.

(** C7, amended. When its closure runs, [identifyUser] hands the tracker's
    [identify] one fresh mapping that holds every entry of [traits] and
    nothing else but [id]; its [id] equals [userId] whenever [traits] has no
    [id] entry of its own. *)
Theorem identifyUser_forwards_traits (userId : string) (traits : option loc) (w : World) :
  entrolytics w = true →
  let w' := task (tryExecute (IdentifyUserCb userId traits)) w in
  ∃ l o, store w !! l = None ∧
         calls w' = calls w ++ [(Identify (VRef l), store w')] ∧
         store w' !! l = Some o ∧
         spread (store w) traits ⊆ o ∧
         dom o = dom (spread (store w) traits) ∪ {["id"]} ∧
         (spread (store w) traits !! "id" = None → o !! "id" = Some (VStr userId)).
Proof.
  intros He.
  exists (fresh (dom (store w))), (spread (store w) traits ∪ {["id" := VStr userId]}).
  split; [apply fresh_unused|].
  unfold task, tryExecute. rewrite He. unfold_bodies. reduce_world. rewrite He.
  reduce_world. rewrite lookup_insert_eq.
  split; [done|]. split; [done|]. split; [apply map_union_subseteq_l|].
  split; [by rewrite dom_union_L, dom_singleton_L|].
  intros Hn. rewrite lookup_union_r by done. apply lookup_singleton_eq.
Qed.

Lemma identifyUser_forwards_traits_witness :
  let w' := task (identifyUser "u1" (Some 1%positive)) shop_page in
  ∃ l o, store shop_page !! l = None ∧
         calls w' = [(Identify (VRef l), store w')] ∧
         store w' !! l = Some o ∧
         ({[ "sku" := VStr "abc" ]} : obj) ⊆ o ∧
         dom o = dom ({[ "sku" := VStr "abc" ]} : obj) ∪ {["id"]} ∧
         (({[ "sku" := VStr "abc" ]} : obj) !! "id" = None → o !! "id" = Some (VStr "u1")).
Proof.
  exact (identifyUser_forwards_traits "u1" (Some 1%positive) shop_page eq_refl).
Defined.

End BridgeProps.

(** ** Properties of the script loader *)

Module LoaderProps.
Import Loader.

Lemma count_in_app i l1 l2 : count_in i (l1 ++ l2) = count_in i l1 + count_in i l2.
Proof. unfold count_in. by rewrite filter_app, length_app. Qed.

Lemma count_id_split i d : count_id i d = count_in i (head d) + count_in i (body d).
Proof. apply count_in_app. Qed.

Lemma count_in_cons i e l :
  count_in i (e :: l) = (if has_id i e then 1 else 0) + count_in i l.
Proof.
  unfold count_in. rewrite filter_cons.
  destruct (decide (has_id i e = true)) as [H|H].
  - by rewrite H.
  - apply not_true_is_false in H. by rewrite H.
Qed.

Lemma find_none_count i l : find (has_id i) l = None → count_in i l = 0.
Proof.
  induction l as [|e l IH]; [done|]. simpl. rewrite count_in_cons.
  destruct (has_id i e); [done|]. intros H. by rewrite IH.
Qed.

Lemma remove_first_count i l : count_in i (remove_first i l) ≤ count_in i l.
Proof.
  induction l as [|e l IH]; [done|]. simpl.
  destruct (has_id i e) eqn:E; rewrite !count_in_cons, ?E; lia.
Qed.

Lemma cleanup_count d : count_id SCRIPT_ID (cleanup d) ≤ count_id SCRIPT_ID d.
Proof.
  unfold cleanup, remove_by_id. rewrite (count_id_split _ d).
  destruct (existsb _ _); rewrite count_id_split; simpl;
    pose proof (remove_first_count SCRIPT_ID (head d));
    pose proof (remove_first_count SCRIPT_ID (body d)); lia.
Qed.

Lemma inject_count p d s :
  count_id SCRIPT_ID d ≤ 1 → count_id SCRIPT_ID (inject p d s).1.1 ≤ 1.
Proof.
  intros H. unfold inject. destruct (has_window d); simpl; [|done].
  destruct (getElementById SCRIPT_ID d) eqn:E; simpl; [done|].
  apply find_none_count in E. rewrite count_in_app in E.
  rewrite count_id_split. simpl. rewrite count_in_app, count_in_cons. simpl.
  change (count_in SCRIPT_ID []) with 0. lia.
Qed.

(** A first mount in a browser adds the script once, and readiness then
    waits for the script's load event. *)
Lemma first_mount_injects_once p d s :
  has_window d = true → count_id SCRIPT_ID d = 0 →
  let r := inject p d s in
  count_id SCRIPT_ID r.1.1 = 1 ∧ r.1.2 = s ∧ r.2 = true ∧
  isReady (script_onload r.1.2) = true.
Proof.
  intros Hw H0. unfold inject. rewrite Hw. simpl.
  destruct (getElementById SCRIPT_ID d) as [e|] eqn:E; simpl.
  - exfalso. unfold getElementById in E. apply find_some in E as [Hin He].
    unfold count_id, count_in in H0. apply length_zero_iff_nil in H0.
    assert (Hf : e ∈ filter (λ e, has_id SCRIPT_ID e = true) (head d ++ body d)).
    { apply list_elem_of_filter. split; [done|]. by apply list_elem_of_In. }
    rewrite H0 in Hf. by apply not_elem_of_nil in Hf.
  - rewrite count_id_split in *. simpl. rewrite count_in_app, count_in_cons. simpl.
    change (count_in SCRIPT_ID []) with 0. repeat split; lia.
Qed.

Lemma lifecycle_count ls d :
  count_id SCRIPT_ID d ≤ 1 → count_id SCRIPT_ID (foldl apply_lifecycle d ls) ≤ 1.
Proof.
  revert d. induction ls as [|l ls IH]; intros d H; simpl; [done|].
  apply IH. destruct l as [p|]; simpl.
  - by apply inject_count.
  - pose proof (cleanup_count d). lia.
Qed.

(** C5. When the provider's effect finds an element with the reserved id,
    it leaves the document as it is, sets the instance ready and loaded at
    once and returns no cleanup; and whatever providers mount and whatever
    cleanups run afterwards, a document that had at most one element with
    that id never has more. *)
Theorem second_mount_reuses_script (p : ProviderProps) (d : Document) (s : Instance)
    (e : element) (ls : list lifecycle) :
  has_window d = true →
  getElementById SCRIPT_ID d = Some e →
  inject p d s = (d, mkInstance true true, false) ∧
  (count_id SCRIPT_ID d ≤ 1 →
   count_id SCRIPT_ID (foldl apply_lifecycle d ls) ≤ 1).
Proof.
  intros Hw He. split.
  - unfold inject. by rewrite Hw, He.
  - apply lifecycle_count.
Qed.

Lemma second_mount_reuses_script_witness :
  inject some_props page_after_first_mount (mkInstance false false) =
    (page_after_first_mount, mkInstance true true, false) ∧
  count_id SCRIPT_ID
    (foldl apply_lifecycle page_after_first_mount [Mount some_props; Cleanup; Mount some_props])
  ≤ 1.
Proof.
  destruct (second_mount_reuses_script some_props page_after_first_mount
              (mkInstance false false) (build_script some_props)
              [Mount some_props; Cleanup; Mount some_props] eq_refl eq_refl) as [A B].
  split; [exact A|]. apply B. vm_compute. lia.
Defined.

End LoaderProps.

(** ** Properties of the [Analytics] component *)

Module AnalyticsFacts.
Import JS Analytics.

Lemma unset_falsy o : unset o → truthy (of_opt_str o) = false.
Proof. by intros [-> | ->]. Qed.

Lemma or_str_unset a b : unset a → or_str a b = b.
Proof. intros H. unfold or_str. by rewrite (unset_falsy a H). Qed.

(** C10. With no [websiteId] prop and neither environment variable set,
    [Analytics] renders [null], so that rendering it into a page leaves the
    document as it was: the provider is not mounted and its injection effect
    does not run. In development mode it warns once, and the warning names
    both environment variables; otherwise it writes nothing. *)
Theorem Analytics_without_website_id (props : AnalyticsProps) (env : Env)
    (d : Loader.Document) :
  unset (websiteId props) →
  unset (processEnv env !! "REACT_APP_ENTROLYTICS_WEBSITE_ID") →
  unset (importMetaEnv env !! "VITE_ENTROLYTICS_WEBSITE_ID") →
  (Analytics props env).1 = None ∧
  render_into props env d = d ∧
  (Analytics props env).2 = (if isDev env then [missing_id_warning] else []) ∧
  is_Some (String.index 0 "REACT_APP_ENTROLYTICS_WEBSITE_ID" missing_id_warning) ∧
  is_Some (String.index 0 "VITE_ENTROLYTICS_WEBSITE_ID" missing_id_warning).
Proof.
  intros H1 H2 H3.
  assert (E : Analytics props env =
              (None, if isDev env then [missing_id_warning] else [])).
  { unfold Analytics. rewrite (or_str_unset _ _ H1), (or_str_unset _ _ H2).
    rewrite (unset_falsy _ H3). by destruct (isDev env). }
  unfold render_into. rewrite E. simpl.
  repeat split; try done; vm_compute; eauto.
Qed.

Lemma Analytics_without_website_id_witness :
  (Analytics bare_props vite_dev).1 = None ∧
  render_into bare_props vite_dev (Loader.mkDocument true [] []) = Loader.mkDocument true [] [] ∧
  (Analytics bare_props vite_dev).2 =
    (if isDev vite_dev then [missing_id_warning] else []) ∧
  is_Some (String.index 0 "REACT_APP_ENTROLYTICS_WEBSITE_ID" missing_id_warning) ∧
  is_Some (String.index 0 "VITE_ENTROLYTICS_WEBSITE_ID" missing_id_warning).
Proof.
  apply (Analytics_without_website_id bare_props vite_dev); left; reflexivity.
Defined.

End AnalyticsFacts.

(** ** Properties of the direct-HTTP trackers *)

Module HttpProps.
Import JS Http.

Lemma try_post_or_log_returns u o msg b :
  (try_post_or_log u o msg b).1 = Returns tt ∧ logged msg b (try_post_or_log u o msg b).2.
Proof.
  unfold try_post_or_log, fetch_post, logged.
  destruct (network b (length (requests b))); simpl; done.
Qed.

Lemma async_fulfilled body b : (body b).1 = Returns tt → (async body b).1 = Fulfilled.
Proof. unfold async. destruct (body b) as [[[]|e] b']; simpl; congruence. Qed.

Lemma async_world body b : (async body b).2 = (body b).2.
Proof. unfold async. by destruct (body b) as [[[]|e] b']. Qed.

(** C9. Whatever the network does with the POST (respond, throw from
    [fetch], or reject the promise), the promise returned by form tracking's
    [trackEvent] and by web vitals' [trackVital] fulfils: nothing is thrown
    to or rejected at the caller. In a browser, a failure adds exactly one
    [console.error] entry carrying the error, and a success adds none. *)
Theorem direct_http_never_throws (config : Config) (options : Forms.Options)
    (data : obj) (vital : Vitals.WebVitalData) (b : Browser) :
  ((Forms.trackEvent config options data b).1 = Fulfilled ∧
   (has_window b = true →
    logged "[Entrolytics] Failed to track form event:" b
      (Forms.trackEvent config options data b).2)) ∧
  ((Vitals.trackVital config vital b).1 = Fulfilled ∧
   (has_window b = true →
    logged "[Entrolytics] Failed to track vital:" b (Vitals.trackVital config vital b).2)).
Proof.
  split.
  - unfold Forms.trackEvent. split.
    + apply async_fulfilled. destruct (has_window b); simpl; [|done].
      apply try_post_or_log_returns.
    + intros Hw. rewrite async_world, Hw. simpl. apply try_post_or_log_returns.
  - unfold Vitals.trackVital. split.
    + apply async_fulfilled. destruct (has_window b); simpl; [|done].
      apply try_post_or_log_returns.
    + intros Hw. rewrite async_world, Hw. simpl. apply try_post_or_log_returns.
Qed.

Lemma direct_http_never_throws_witness :
  let start : obj := {[ "eventType" := VStr "start" ]} in
  let lcp := Vitals.mkWebVitalData "LCP" 1200 "good" None None None VUndef in
  ((Forms.trackEvent site Forms.signup_form start offline).1 = Fulfilled ∧
   console_error (Forms.trackEvent site Forms.signup_form start offline).2
     = [("[Entrolytics] Failed to track form event:", "TypeError")]) ∧
  ((Vitals.trackVital site lcp offline).1 = Fulfilled ∧
   console_error (Vitals.trackVital site lcp offline).2
     = [("[Entrolytics] Failed to track vital:", "TypeError")]).
Proof.
  intros start lcp.
  pose proof (direct_http_never_throws site Forms.signup_form start lcp offline)
    as [[A B] [C D]].
  split; (split; [assumption|]); [exact (B eq_refl) | exact (D eq_refl)].
Defined.

End HttpProps.

(** ** Properties of form tracking *)

Module FormsProps.
Import JS Http Forms.

Section Hook.
Variable config : Config.
Variable options : Options.

Abbreviation fire := (fire config options).

Lemma fire_event_types data t b :
  data !! "eventType" = Some (VStr t) →
  event_types (fire data b) =
    event_types b ++ (if has_window b then [VStr t] else []).
Proof.
  intros Hd. unfold Forms.fire, trackEvent. rewrite HttpProps.async_world.
  destruct (has_window b); simpl; [|by rewrite app_nil_r].
  unfold try_post_or_log, fetch_post, event_types.
  set (o := _ ∪ _ ∪ _).
  assert (G : get (json_object o) "eventType" = VStr t).
  { unfold get, json_object.
    erewrite map_lookup_filter_Some_2; [done| |done].
    unfold o. by do 2 apply lookup_union_Some_l. }
  destruct (network b (length (requests b))); simpl; rewrite map_app; simpl; by rewrite G.
Qed.

Lemma fire_has_window data b : has_window (fire data b) = has_window b.
Proof.
  unfold Forms.fire, trackEvent. rewrite HttpProps.async_world.
  destruct (has_window b) eqn:E; simpl; [|done].
  unfold try_post_or_log, fetch_post.
  destruct (network b (length (requests b))); simpl; done.
Qed.

Lemma starts_app_other b b' t :
  event_types b' = event_types b ++ (if has_window b then [VStr t] else []) →
  t ≠ "start" → starts b' = starts b.
Proof.
  intros E Ht. unfold starts. rewrite E, filter_app, length_app.
  destruct (has_window b); simpl; [|lia].
  rewrite filter_cons. destruct (decide _) as [H|H]; [congruence|]. simpl. lia.
Qed.

Lemma since_event_types t b : event_types (since t b).2 = event_types b.
Proof.
  unfold since. destruct t as [n|]; [|done]. by destruct (truthy (VNum n)).
Qed.

Lemma since_has_window t b : has_window (since t b).2 = has_window b.
Proof.
  unfold since. destruct t as [n|]; [|done]. by destruct (truthy (VNum n)).
Qed.

Ltac lookup_eventType := by repeat (rewrite lookup_insert_ne by done); rewrite ?lookup_insert_eq, ?lookup_singleton_eq.

(** [trackStart] sends ['start'] exactly when no start time is recorded,
    and records one then. *)
Lemma trackStart_fresh s b :
  startTime s = None →
  let sb := trackStart config options s b in
  started sb.1 ∧ hasInteracted sb.1 = hasInteracted s ∧
  has_window sb.2 = has_window b ∧
  event_types sb.2 = event_types b ++ (if has_window b then [VStr "start"] else []).
Proof.
  intros H. unfold trackStart. rewrite H. simpl.
  split; [by eexists|]. split; [done|].
  rewrite fire_has_window. split; [done|].
  by rewrite (fire_event_types _ "start") by apply lookup_singleton_eq.
Qed.

Lemma trackStart_started s b :
  started s → trackStart config options s b = (s, b).
Proof. intros [t H]. unfold trackStart. by rewrite H. Qed.

(** A step that reads the clock and then sends one event of type [t]. *)
Lemma since_then_fire (t : string) (data : value → obj) (o : option Z) (b : Browser) :
  (∀ v, data v !! "eventType" = Some (VStr t)) →
  let b' := fire (data (since o b).1) (since o b).2 in
  has_window b' = has_window b ∧
  event_types b' = event_types b ++ (if has_window b then [VStr t] else []).
Proof.
  intros Hd. simpl. rewrite fire_has_window, since_has_window. split; [done|].
  rewrite (fire_event_types _ t) by apply Hd.
  by rewrite since_event_types, since_has_window.
Qed.

Lemma trackFieldFocus_spec n t k s b :
  let sb := trackFieldFocus config options n t k s b in
  has_window sb.2 = has_window b ∧
  (started s ∨ hasInteracted s = false → started sb.1) ∧
  hasInteracted sb.1 = true ∧
  event_types sb.2 =
    event_types b ++
    (if has_window b
     then (if negb (hasInteracted s) && bool_decide (startTime s = None)
           then [VStr "start"] else []) ++ [VStr "field_focus"]
     else []).
Proof.
  unfold trackFieldFocus.
  set (st1 := if negb (hasInteracted s) then _ else _).
  assert (H1 : has_window st1.2 = has_window b ∧
               (started s ∨ hasInteracted s = false → started st1.1) ∧
               hasInteracted st1.1 = true ∧
               event_types st1.2 =
                 event_types b ++
                 (if has_window b
                  then (if negb (hasInteracted s) && bool_decide (startTime s = None)
                        then [VStr "start"] else [])
                  else [])).
  { unfold st1. destruct (hasInteracted s) eqn:Hi; simpl.
    - repeat split; [by intros [?|?]|done|]. destruct (has_window b); by rewrite app_nil_r.
    - destruct (startTime s) as [t0|] eqn:Hs.
      + rewrite trackStart_started by (by eexists). simpl.
        repeat split; [by eexists|]. destruct (has_window b); by rewrite app_nil_r.
      + destruct (trackStart_fresh (mkFormState None (fieldStartTimes s) true
                                      (lastFieldName s)) b eq_refl) as (A & B & C & D).
        simpl. repeat split; done. }
  clearbody st1. destruct st1 as [s1 b1]. simpl in H1.
  destruct H1 as (W1 & S1 & I1 & E1).
  set (st2 := if trackTiming options then _ else _).
  assert (H2 : has_window st2.2 = has_window b1 ∧ startTime st2.1 = startTime s1 ∧
               hasInteracted st2.1 = hasInteracted s1 ∧
               event_types st2.2 = event_types b1).
  { unfold st2. by destruct (trackTiming options). }
  clearbody st2. destruct st2 as [s2 b2]. simpl in H2.
  destruct H2 as (W2 & S2 & I2 & E2). simpl.
  pose proof (since_then_fire "field_focus"
    (λ v, <["timeSinceStart" := v]>
            (<["fieldIndex" := from_option VNum VUndef k]>
               (<["fieldType" := of_opt_str t]>
                  (<["fieldName" := VStr n]> {["eventType" := VStr "field_focus"]}))))
    (startTime s2) b2) as F.
  destruct (since (startTime s2) b2) as [v b3]. simpl in F |- *.
  destruct F as [W3 E3]; [intros v'; lookup_eventType|].
  split; [congruence|]. split; [intros H; unfold started in *; rewrite S2; auto|].
  split; [congruence|].
  rewrite E3, E2, E1, W2, W1, <- app_assoc. by destruct (has_window b); rewrite ?app_nil_r.
Qed.

Lemma sends_nothing s b : sends [] s b (s, b).
Proof. unfold sends. simpl. by destruct (has_window b); rewrite app_nil_r. Qed.

Lemma trackFieldBlur_spec n t k s b :
  sends [VStr "field_blur"] s b (trackFieldBlur config options n t k s b).
Proof.
  unfold trackFieldBlur, sends.
  pose proof (since_has_window (fieldStartTimes s !! n) b) as W0.
  pose proof (since_event_types (fieldStartTimes s !! n) b) as E0.
  destruct (since (fieldStartTimes s !! n) b) as [v0 b1]. simpl in W0, E0.
  pose proof (since_then_fire "field_blur"
    (λ v, <["timeSinceStart" := v]>
            (<["timeOnField" := v0]>
               (<["fieldIndex" := from_option VNum VUndef k]>
                  (<["fieldType" := of_opt_str t]>
                     (<["fieldName" := VStr n]> {["eventType" := VStr "field_blur"]})))))
    (startTime s) b1) as F.
  destruct (since (startTime s) b1) as [v b2]. simpl in F |- *.
  destruct F as [W E]; [intros v'; lookup_eventType|].
  split; [done|]. split; [congruence|]. by rewrite E, E0, W0.
Qed.

Lemma trackFieldError_spec n m t k s b :
  sends [VStr "field_error"] s b (trackFieldError config options n m t k s b).
Proof.
  unfold trackFieldError, sends.
  pose proof (since_then_fire "field_error"
    (λ v, <["timeSinceStart" := v]>
            (<["errorMessage" := VStr m]>
               (<["fieldIndex" := from_option VNum VUndef k]>
                  (<["fieldType" := of_opt_str t]>
                     (<["fieldName" := VStr n]> {["eventType" := VStr "field_error"]})))))
    (startTime s) b) as F.
  destruct (since (startTime s) b) as [v b1]. simpl in F |- *.
  destruct F as [W E]; [intros v'; lookup_eventType|]. done.
Qed.

Lemma trackAbandon_spec s b :
  let sb := trackAbandon config options s b in
  sends [] s b sb ∨ sends [VStr "abandon"] s b sb.
Proof.
  unfold trackAbandon. destruct (hasInteracted s); simpl; [|left; apply sends_nothing].
  right. unfold sends.
  set (f := if truthy (of_opt_str (lastFieldName s)) then _ else _).
  pose proof (since_then_fire "abandon"
    (λ v, <["timeSinceStart" := v]> (<["fieldName" := f]> {["eventType" := VStr "abandon"]}))
    (startTime s) b) as F.
  destruct (since (startTime s) b) as [v b1]. simpl in F |- *.
  destruct F as [W E]; [intros v'; lookup_eventType|]. done.
Qed.

Lemma handleBeforeUnload_spec s b :
  let sb := handleBeforeUnload config options s b in
  sends [] s b sb ∨ sends [VStr "abandon"] s b sb.
Proof.
  unfold handleBeforeUnload. destruct (_ && _); [apply trackAbandon_spec|].
  left. apply sends_nothing.
Qed.

Lemma sends_starts t s b sb :
  sends [] s b sb ∨ (sends [VStr t] s b sb ∧ t ≠ "start") →
  sb.1 = s ∧ has_window sb.2 = has_window b ∧ starts sb.2 = starts b.
Proof.
  intros [(A & B & C)|[(A & B & C) Ht]]; (split; [done|]); (split; [done|]).
  - unfold starts. rewrite C. by destruct (has_window b); rewrite app_nil_r.
  - by apply (starts_app_other b sb.2 t).
Qed.

Lemma count_start_focus :
  length (filter (λ t, t = VStr "start") ([VStr "start"] ++ [VStr "field_focus"])) = 1.
Proof. reflexivity. Qed.

Lemma count_focus :
  length (filter (λ t, t = VStr "start") ([] ++ [VStr "field_focus"])) = 0.
Proof. reflexivity. Qed.

Lemma count_start : length (filter (λ t, t = VStr "start") [VStr "start"]) = 1.
Proof. reflexivity. Qed.

(** One interaction: either no ['start'] is sent and a started session
    stays started, or the session was not started, now is, and exactly one
    ['start'] was sent. *)
Lemma interact_starts sb i :
  let sb' := interact config options sb i in
  has_window sb'.2 = has_window sb.2 ∧
  ((starts sb'.2 = starts sb.2 ∧ (started sb.1 → started sb'.1)) ∨
   (¬ started sb.1 ∧ started sb'.1 ∧ starts sb'.2 = starts sb.2 + 1)).
Proof.
  destruct sb as [s b]. destruct i as [n t k|n t k|n m t k| | |]; simpl.
  - destruct (trackFieldFocus_spec n t k s b) as (W & S & _ & E).
    split; [done|]. unfold starts. rewrite E, filter_app, length_app.
    destruct (has_window b); [|left; split; [simpl; lia|auto]].
    destruct (negb (hasInteracted s) && bool_decide (startTime s = None)) eqn:C.
    + right. apply andb_true_iff in C as [C1 C2].
      apply negb_true_iff in C1. apply bool_decide_eq_true in C2.
      split; [intros [? ?]; congruence|]. split; [auto|].
      by rewrite count_start_focus.
    + left. rewrite count_focus. split; [lia|auto].
  - assert (H : "field_blur" ≠ "start") by discriminate.
    destruct (sends_starts _ _ _ _ (or_intror (conj (trackFieldBlur_spec n t k s b) H)))
      as (A & B & C).
    split; [done|]. left. rewrite A. done.
  - assert (H : "field_error" ≠ "start") by discriminate.
    destruct (sends_starts _ _ _ _ (or_intror (conj (trackFieldError_spec n m t k s b) H)))
      as (A & B & C).
    split; [done|]. left. rewrite A. done.
  - destruct (startTime s) as [t0|] eqn:Hs.
    + rewrite trackStart_started by (by eexists). split; [done|]. by left.
    + destruct (trackStart_fresh s b Hs) as (A & _ & C & D).
      split; [done|]. unfold starts. rewrite D, filter_app, length_app.
      destruct (has_window b).
      * right. split; [intros [? ?]; congruence|]. split; [done|].
        by rewrite count_start.
      * left. split; [simpl; lia|done].
  - assert (H : sends [] s b (trackAbandon config options s b) ∨
                (sends [VStr "abandon"] s b (trackAbandon config options s b) ∧
                 "abandon" ≠ "start")).
    { destruct (trackAbandon_spec s b); [by left|right; split; [done|discriminate]]. }
    destruct (sends_starts _ _ _ _ H) as (A & B & C).
    split; [done|]. left. rewrite A. done.
  - assert (H : sends [] s b (handleBeforeUnload config options s b) ∨
                (sends [VStr "abandon"] s b (handleBeforeUnload config options s b) ∧
                 "abandon" ≠ "start")).
    { destruct (handleBeforeUnload_spec s b); [by left|right; split; [done|discriminate]]. }
    destruct (sends_starts _ _ _ _ H) as (A & B & C).
    split; [done|]. left. rewrite A. done.
Qed.

Lemma session_started acts sb :
  started sb.1 →
  starts (session config options acts sb).2 = starts sb.2.
Proof.
  revert sb. unfold session.
  induction acts as [|i acts IH]; intros sb H; simpl; [done|].
  destruct (interact_starts sb i) as (_ & [[A B]|[A _]]); [|done].
  rewrite IH by auto. done.
Qed.

Lemma session_at_most_one_start acts sb :
  starts (session config options acts sb).2 ≤ starts sb.2 + 1.
Proof.
  revert sb. unfold session.
  induction acts as [|i acts IH]; intros sb; simpl; [lia|].
  destruct (interact_starts sb i) as (_ & [[A B]|(A & B & C)]).
  - specialize (IH (interact config options sb i)). lia.
  - pose proof (session_started acts _ B) as S. unfold session in S. lia.
Qed.

(** [trackSubmit] ends the session: the state is the initial one again,
    whatever it was. *)
Lemma trackSubmit_resets success s b :
  (trackSubmit config options success s b).1 = initial_state.
Proof. unfold trackSubmit. by destruct (since (startTime s) b). Qed.

End Hook.

(** C8. In a browser, the first field focus of a session (the state is
    the initial one, as at mount and after every submit) sends ['start'] and
    then ['field_focus']; whatever interactions follow short of a submit
    send no further ['start']; and a session sends at most one ['start']
    however it unfolds. *)
Theorem first_focus_sends_start (config : Config) (options : Options)
    (fieldName : string) (fieldType : option string) (fieldIndex : option Z)
    (acts : list interaction) (b : Browser) :
  has_window b = true →
  let sb := trackFieldFocus config options fieldName fieldType fieldIndex initial_state b in
  event_types sb.2 = event_types b ++ [VStr "start"; VStr "field_focus"] ∧
  starts (session config options acts sb).2 = starts b + 1 ∧
  starts (session config options acts (initial_state, b)).2 ≤ starts b + 1.
Proof.
  intros Hw.
  destruct (trackFieldFocus_spec config options fieldName fieldType fieldIndex
              initial_state b) as (W & S & _ & E).
  rewrite Hw in E. cbn [hasInteracted startTime initial_state negb andb] in E.
  rewrite bool_decide_eq_true_2 in E by done.
  cbv zeta. split; [done|]. split; [|apply session_at_most_one_start].
  rewrite session_started by auto.
  unfold starts. rewrite E, filter_app, length_app.
  change [VStr "start"; VStr "field_focus"] with ([VStr "start"] ++ [VStr "field_focus"]).
  by rewrite count_start_focus.
Qed.

Lemma first_focus_sends_start_witness :
  let sb := trackFieldFocus site signup_form "email" (Some "email")
              (Some 0%Z) initial_state online in
  let acts := [Blur "email" (Some "email") (Some 0%Z); Focus "name" None None; Start] in
  event_types sb.2 = [VStr "start"; VStr "field_focus"] ∧
  starts (session site signup_form acts sb).2 = 1 ∧
  starts (session site signup_form acts (initial_state, online)).2 ≤ 1.
Proof.
  exact (first_focus_sends_start site signup_form "email" (Some "email")
           (Some 0%Z)
           [Blur "email" (Some "email") (Some 0%Z); Focus "name" None None; Start]
           online eq_refl).
Defined.

End FormsProps.

(** ** More on the bridge and its callers *)

Module BridgeExtra.
Import JS Bridge Callers BridgeProps.

Lemma world_eta w :
  mkWorld (has_window w) (entrolytics w) (store w) (tagRef w) (timers w) (calls w)
    (invoked w) (transformed w) (uncaught w) = w.
Proof. by destruct w. Qed.

Lemma set_store_twice h h' w : set_store h (set_store h' w) = set_store h w.
Proof. done. Qed.

(** Writing an optional field on an object of the store. *)
Lemma stamp_field l k x o w :
  store w !! l = Some o →
  (if truthy (of_opt_str x) then set_prop (VRef l) k (of_opt_str x) else ret tt) w =
  (Normal tt, set_store (<[l := opt_field k x o]> (store w)) w).
Proof.
  intros H. unfold opt_field, of_opt_str, truthy, set_prop, ret.
  destruct x as [s|]; simpl; [destruct (String.eqb s ""); simpl|].
  - rewrite insert_id by done. unfold set_store. by rewrite world_eta.
  - by rewrite H.
  - rewrite insert_id by done. unfold set_store. by rewrite world_eta.
Qed.

(** What the page-view closure does, in one equation. *)
Lemma trackPageView_body_eq url referrer w :
  let l := fresh (dom (store w)) in
  run_callback (TrackPageViewCb url referrer) w =
  entrolytics_track (VRef l) VUndef
    (set_store (<[l := with_tag (tagRef w)
                          (opt_field "referrer" referrer (opt_field "url" url ∅))]>
                  (store w)) w).
Proof.
  intros l. unfold run_callback, trackPageView_body, mbind, M_bind, bind, new_object.
  fold l.
  rewrite (stamp_field l "url" url ∅) by apply lookup_insert_eq.
  cbn [store set_store]. rewrite insert_insert_eq.
  rewrite (stamp_field l "referrer" referrer (opt_field "url" url ∅))
    by apply lookup_insert_eq.
  cbn [store set_store]. rewrite insert_insert_eq.
  unfold read_tagRef. cbn [tagRef].
  rewrite (stamp_field l "tag" (tagRef w) (opt_field "referrer" referrer (opt_field "url" url ∅)))
    by apply lookup_insert_eq.
  cbn [store set_store]. rewrite insert_insert_eq. done.
Qed.

Lemma task_tryExecute_run cb w :
  entrolytics w = true →
  task (tryExecute cb) w = task (run_callback cb) (set_invoked (invoked w ++ [cb]) w).
Proof. intros H. unfold task, tryExecute. by rewrite H. Qed.

Lemma task_waitForTracker_absent cb w :
  has_window w = true → entrolytics w = false →
  task (waitForTracker cb) w = set_timers (timers w ++ [cb]) w.
Proof.
  intros Hw He. rewrite task_waitForTracker by done.
  unfold task. by rewrite tryExecute_absent.
Qed.

(** X1. When the page-view closure runs, the tracker receives one fresh
    object and nothing else: it holds [url] and [referrer] only where the
    caller gave a non-empty string, and [tag] only when the current tag is a
    non-empty string. Nothing is thrown. *)
Theorem trackPageView_payload (url referrer : option string) (w : World) :
  entrolytics w = true →
  let w' := task (tryExecute (TrackPageViewCb url referrer)) w in
  ∃ l, store w !! l = None ∧
       calls w' = calls w ++ [(Track (VRef l) VUndef, store w')] ∧
       store w' !! l =
         Some (with_tag (tagRef w) (opt_field "referrer" referrer (opt_field "url" url ∅))) ∧
       uncaught w' = uncaught w.
Proof.
  intros He. exists (fresh (dom (store w))). split; [apply fresh_unused|].
  rewrite task_tryExecute_run by done. unfold task.
  rewrite trackPageView_body_eq. unfold entrolytics_track. cbn. rewrite He. cbn.
  rewrite lookup_insert_eq. done.
Qed.

Lemma trackPageView_payload_witness :
  let w' := task (tryExecute (TrackPageViewCb (Some "/pricing") (Some ""))) loaded_page in
  ∃ l, store loaded_page !! l = None ∧
       calls w' = [(Track (VRef l) VUndef, store w')] ∧
       store w' !! l = Some {[ "url" := VStr "/pricing" ]} ∧
       uncaught w' = [].
Proof.
  exact (trackPageView_payload (Some "/pricing") (Some "") loaded_page eq_refl).
Defined.

(** X3. A page view requested while the script is still loading carries
    the tag set afterwards: after [trackPageView], then [setTag(t)] with [t]
    non-empty, then the script's arrival and one poll, the tracker has
    received one object whose [tag] is [t]. *)
Theorem late_tag_reaches_page_view (beforeSend : option beforeSend_fn)
    (url referrer : option string) (t : string) (w : World) :
  has_window w = true → entrolytics w = false → timers w = [] → t ≠ "" →
  let w' := run beforeSend [Call (ATrackPageView url referrer); Call (ASetTag t);
                            TrackerLoads; TimerFires] w in
  ∃ l o, calls w' = calls w ++ [(Track (VRef l) VUndef, store w')] ∧
         store w' !! l = Some o ∧ o !! "tag" = Some (VStr t).
Proof.
  intros Hw He Ht Hne. cbv zeta. unfold run. cbn [foldl step dispatch].
  unfold trackPageView. rewrite task_waitForTracker_absent by done. rewrite Ht.
  change (task (setTag t) ?x) with (set_tagRef (Some t) x).
  unfold fire_timer. cbn [app timers set_timers set_tagRef set_entrolytics].
  rewrite task_tryExecute_run by done. unfold task.
  rewrite trackPageView_body_eq. unfold entrolytics_track. cbn.
  eexists _, _. split; [done|]. rewrite lookup_insert_eq. split; [done|].
  unfold with_tag. apply String.eqb_neq in Hne. rewrite Hne. apply lookup_insert_eq.
Qed.

Lemma late_tag_reaches_page_view_witness :
  let w' := run None [Call (ATrackPageView (Some "/home") None); Call (ASetTag "T");
                      TrackerLoads; TimerFires] waiting_page in
  ∃ l o, calls w' = [(Track (VRef l) VUndef, store w')] ∧
         store w' !! l = Some o ∧ o !! "tag" = Some (VStr "T").
Proof.
  apply (late_tag_reaches_page_view None (Some "/home") None "T" waiting_page);
    try reflexivity. discriminate.
Defined.

Lemma track_forwards_arguments_any n d w l :
  l ∈ dom (store w) → store (run_callback (TrackCb None n d) w).2 !! l = store w !! l.
Proof.
  intros Hl. pose proof (fresh_other _ _ Hl).
  unfold_bodies. reduce_world.
  destruct (truthy (of_opt_str (tagRef w))); reduce_world;
    destruct (entrolytics w); reduce_world; by rewrite ?lookup_insert_ne.
Qed.

(** X2. When the outbound-link closure runs, the tracker receives the
    fixed event name ['outbound-link-click'] and a fresh object whose [url]
    is the [url] argument, even when the caller's data has a [url] of its
    own; every other key is the caller's (so no tag is added), and no object
    the caller holds is changed. *)
Theorem trackOutboundLink_payload (url : string) (data : option loc) (w : World) :
  entrolytics w = true →
  let w' := task (tryExecute (TrackOutboundLinkCb url data)) w in
  ∃ l o, store w !! l = None ∧
         calls w' = calls w ++ [(Track (VStr "outbound-link-click") (VRef l), store w')] ∧
         store w' !! l = Some o ∧
         o !! "url" = Some (VStr url) ∧
         (∀ k, k ≠ "url" → o !! k = spread (store w) data !! k) ∧
         (∀ l', l' ∈ dom (store w) → store w' !! l' = store w !! l').
Proof.
  intros He. exists (fresh (dom (store w))), (<["url" := VStr url]> (spread (store w) data)).
  split; [apply fresh_unused|].
  rewrite task_tryExecute_run by done. unfold task.
  unfold_bodies. reduce_world. rewrite He. reduce_world.
  split; [done|]. split; [apply lookup_insert_eq|].
  split; [apply lookup_insert_eq|].
  split; [intros k Hk; by rewrite lookup_insert_ne|].
  intros l' Hl. pose proof (fresh_other _ _ Hl). by rewrite lookup_insert_ne.
Qed.

Lemma trackOutboundLink_payload_witness :
  let w' := task (tryExecute (TrackOutboundLinkCb "https://example.com" (Some 1%positive)))
              shop_page in
  ∃ l o, store shop_page !! l = None ∧
         calls w' = [(Track (VStr "outbound-link-click") (VRef l), store w')] ∧
         store w' !! l = Some o ∧
         o !! "url" = Some (VStr "https://example.com") ∧
         (∀ k, k ≠ "url" → o !! k = ({[ "sku" := VStr "abc" ]} : obj) !! k) ∧
         (∀ l', l' ∈ dom (store shop_page) → store w' !! l' = store shop_page !! l').
Proof.
  exact (trackOutboundLink_payload "https://example.com" (Some 1%positive) shop_page eq_refl).
Defined.

Lemma fire_timer_absent_eq w :
  entrolytics w = false →
  fire_timer w =
    set_timers (match timers w with [] => [] | c :: r => r ++ [c] end) w.
Proof.
  intros H. unfold fire_timer. destruct (timers w) as [|c r] eqn:E.
  - unfold set_timers. by rewrite <- E, world_eta.
  - unfold task. by rewrite tryExecute_absent.
Qed.

Lemma dispatch_absent bs a w :
  entrolytics w = false →
  untouched w (task (dispatch bs a) w) ∧
  timers (task (dispatch bs a) w) =
    timers w ++ (if has_window w then option_list (closure bs a) else []).
Proof.
  intros He.
  assert (G : ∀ cb, untouched w (task (waitForTracker cb) w) ∧
                    timers (task (waitForTracker cb) w) =
                      timers w ++ (if has_window w then [cb] else [])).
  { intros cb. destruct (has_window w) eqn:Hw.
    - rewrite task_waitForTracker_absent by done. by repeat split.
    - unfold task, waitForTracker. rewrite Hw. simpl. rewrite app_nil_r. by repeat split. }
  destruct a; simpl; try apply G.
  split; [by repeat split|]. by destruct (has_window w); rewrite app_nil_r.
Qed.

(** X4. Until the script defines the global tracker, nothing reaches it:
    whatever context functions are called and however many polls fire, the
    tracker's log, the objects, the transform and the error log stay as they
    were (only the timer queue and the tag change). *)
Theorem no_call_before_load (beforeSend : option beforeSend_fn) (es : list event)
    (w : World) :
  entrolytics w = false → TrackerLoads ∉ es →
  let w' := run beforeSend es w in
  entrolytics w' = false ∧ calls w' = calls w ∧ invoked w' = invoked w ∧
  transformed w' = transformed w ∧ store w' = store w ∧ uncaught w' = uncaught w.
Proof.
  intros He Hes. cbv zeta. unfold run. revert w He.
  induction es as [|e es IH]; intros w He; [done|].
  apply not_elem_of_cons in Hes as [Hne Hes]. simpl.
  assert (S : untouched w (step beforeSend w e)).
  { destruct e as [a| |]; simpl; [by apply dispatch_absent| |done].
    rewrite fire_timer_absent_eq by done. by repeat split. }
  destruct S as (_ & S2 & S3 & S4 & S5 & S6 & S7).
  destruct (IH Hes (step beforeSend w e)) as (A & B & C & D & E & F); [congruence|].
  repeat split; congruence.
Qed.

Lemma no_call_before_load_witness :
  let w' := run (Some drop_all)
              [Call (ATrack "signup" None); TimerFires; Call (ASetTag "T");
               Call (AIdentifyUser "u1" None); TimerFires; TimerFires] waiting_page in
  entrolytics w' = false ∧ calls w' = [] ∧ invoked w' = [] ∧
  transformed w' = [] ∧ store w' = ∅ ∧ uncaught w' = [].
Proof.
  apply (no_call_before_load (Some drop_all)); [reflexivity|].
  intros H. repeat (apply elem_of_cons in H as [H|H]; [discriminate H|]).
  by apply elem_of_nil in H.
Defined.

(** Without a transform a closure never throws and makes exactly one call
    to the tracker. *)
Lemma plain_runs cb w :
  plain cb → entrolytics w = true →
  (run_callback cb w).1 = Normal tt ∧
  length (calls (run_callback cb w).2) = S (length (calls w)) ∧
  uncaught (run_callback cb w).2 = uncaught w.
Proof.
  intros Hp He. destruct cb as [[f|] n d|u r|n r c d|u d|d|u t]; [done|..];
    unfold_bodies; reduce_world; rewrite ?He; reduce_world;
    repeat (case_match; simplify_eq; reduce_world; rewrite ?He; reduce_world);
    rewrite ?length_app; simpl; repeat split; try done; lia.
Qed.

Lemma closure_plain a cb : closure None a = Some cb → plain cb.
Proof. destruct a; simpl; intros H; by simplify_eq. Qed.

Lemma run_replicate_timers bs n w :
  run bs (replicate n TimerFires) w = Nat.iter n fire_timer w.
Proof.
  unfold run. revert w. induction n as [|n IH]; intros w; [done|].
  simpl. rewrite IH. clear IH. induction n as [|n IH]; [done|]. simpl. by rewrite IH.
Qed.

Lemma polls_deliver m w :
  entrolytics w = true → Forall plain (timers w) →
  let w' := Nat.iter m fire_timer w in
  length (calls w') = length (calls w) + min m (length (timers w)) ∧
  uncaught w' = uncaught w.
Proof.
  intros He Hp. induction m as [|m IH]; [simpl; split; [lia|done]|].
  destruct IH as [IHc IHu].
  destruct (polls_present m w He) as (Pe & _ & Pt).
  cbv zeta in *. rewrite Nat.iter_succ. set (wm := Nat.iter m fire_timer w) in *.
  unfold fire_timer. destruct (timers wm) as [|c r] eqn:E.
  - rewrite IHc, IHu. split; [|done].
    assert (length (drop m (timers w)) = 0) by (by rewrite <- Pt).
    rewrite length_drop in *. lia.
  - assert (Hc : plain c).
    { assert (Hd : Forall plain (c :: r)) by (rewrite Pt; by apply Forall_drop).
      by inversion Hd. }
    rewrite task_tryExecute_run by done.
    destruct (plain_runs c (set_invoked (invoked (set_timers r wm) ++ [c]) (set_timers r wm))
                Hc Pe) as (A & B & C).
    unfold task. destruct (run_callback c _) as [[[]|e] w1];
      cbn [fst snd calls uncaught set_invoked set_timers set_uncaught] in *; [|done].
    rewrite B, C, IHc, IHu. split; [|done].
    assert (length (drop m (timers w)) = S (length r)) by (by rewrite <- Pt).
    rewrite length_drop in *. lia.
Qed.

Lemma omap_cons_list {A B} (f : A → option B) a l :
  omap f (a :: l) = option_list (f a) ++ omap f l.
Proof. simpl. by destruct (f a). Qed.

Lemma calls_queued bs acts w :
  has_window w = true → entrolytics w = false →
  let w' := run bs (map Call acts) w in
  untouched w w' ∧ timers w' = timers w ++ omap (closure bs) acts.
Proof.
  intros Hw He. cbv zeta. unfold run. revert w Hw He.
  induction acts as [|a acts IH]; intros w Hw He; simpl.
  - rewrite app_nil_r. by repeat split.
  - destruct (dispatch_absent bs a w He) as [(U1 & U2 & U3 & U4 & U5 & U6 & U7) T].
    destruct (IH (task (dispatch bs a) w)) as [(V1 & V2 & V3 & V4 & V5 & V6 & V7) T'];
      [congruence..|].
    split; [repeat split; congruence|].
    rewrite T', T, Hw, <- app_assoc. f_equal. by destruct (closure bs a).
Qed.

(** X5. Calls made while the script is loading are neither lost nor
    repeated. With no transform configured, after any sequence of context
    calls, the script's arrival and as many polls as there were calls, every
    queued closure has run exactly once, in call order, each has made one
    call to the tracker, the queue is empty and nothing was thrown. *)
Theorem queued_dispatches_delivered (acts : list api) (w : World) :
  has_window w = true → entrolytics w = false → timers w = [] →
  let queued := omap (closure None) acts in
  let w' := run None (map Call acts ++ TrackerLoads :: replicate (length acts) TimerFires) w in
  invoked w' = invoked w ++ queued ∧ timers w' = [] ∧
  length (calls w') = length (calls w) + length queued ∧
  uncaught w' = uncaught w.
Proof.
  intros Hw He Ht. cbv zeta. unfold run. rewrite foldl_app. fold (run None (map Call acts) w).
  destruct (calls_queued None acts w Hw He) as [(U1 & U2 & U3 & U4 & U5 & U6 & U7) T].
  set (w1 := run None (map Call acts) w) in *. rewrite Ht in T. simpl in T.
  cbn [foldl step]. fold (run None (replicate (length acts) TimerFires) (set_entrolytics true w1)).
  rewrite run_replicate_timers.
  set (w2 := set_entrolytics true w1).
  assert (P : entrolytics w2 = true) by done.
  assert (L : length (omap (closure None) acts) ≤ length acts).
  { clear. induction acts as [|a acts IH]; [done|].
    rewrite omap_cons_list, length_app. destruct (closure None a); simpl; lia. }
  destruct (polls_present (length acts) w2 P) as (_ & I & Tm).
  destruct (polls_deliver (length acts) w2 P) as (C & U).
  { simpl. rewrite T. clear. induction acts as [|a acts IH]; [constructor|].
    rewrite omap_cons_list. apply Forall_app. split; [|done].
    destruct (closure None a) eqn:E; simpl; constructor; [by eapply closure_plain|done]. }
  simpl in I, Tm, C, U. rewrite T in I, Tm, C.
  rewrite I, Tm, C, U, U5, U4, U7.
  rewrite take_ge, drop_ge by lia. repeat split; try done. lia.
Qed.

Lemma queued_dispatches_delivered_witness :
  let acts := [ATrackPageView (Some "/home") None; ASetTag "T";
               ATrack "signup" None; AIdentifyUser "u1" None] in
  let w' := run None (map Call acts ++ TrackerLoads :: replicate (length acts) TimerFires)
              waiting_page in
  invoked w' = [TrackPageViewCb (Some "/home") None; TrackCb None "signup" None;
                IdentifyUserCb "u1" None] ∧
  timers w' = [] ∧ length (calls w') = 3 ∧ uncaught w' = [].
Proof.
  exact (queued_dispatches_delivered
           [ATrackPageView (Some "/home") None; ASetTag "T";
            ATrack "signup" None; AIdentifyUser "u1" None]
           waiting_page eq_refl eq_refl eq_refl).
Defined.

(** X6. What [track] does with the transform's answer when it is not
    [null]. If no tag is set, or the answer is an object, the tracker receives
    the original [eventName] and [eventData] (the answer itself is never
    sent). If a tag is set and the answer is [undefined] or a primitive,
    writing the tag throws a TypeError and the tracker is not called. *)
Theorem track_transform_answer (f : beforeSend_fn) (eventName : string)
    (eventData : option loc) (w : World) :
  entrolytics w = true →
  let r := transform_answer f eventName eventData w in
  let w' := task (tryExecute (TrackCb (Some f) eventName eventData)) w in
  (r ≠ VNull → truthy (of_opt_str (tagRef w)) = false ∨ (∃ l, r = VRef l) →
   (∃ h, calls w' = calls w ++ [(Track (VStr eventName) (of_opt_ref eventData), h)]) ∧
   uncaught w' = uncaught w) ∧
  (r ≠ VNull → truthy (of_opt_str (tagRef w)) = true → (∀ l, r ≠ VRef l) →
   calls w' = calls w ∧ uncaught w' = uncaught w ++ ["TypeError"]).
Proof.
  intros He. cbv zeta. rewrite task_tryExecute_run by done. unfold task, transform_answer.
  unfold_bodies. reduce_world.
  destruct (f "event" _ _) as [r h]. reduce_world. split.
  - intros Hn [Ht|[l ->]].
    + destruct r; try done; reduce_world; rewrite Ht; reduce_world; rewrite He;
        reduce_world; eauto.
    + reduce_world. destruct (truthy (of_opt_str (tagRef w))); reduce_world; rewrite He;
        reduce_world; eauto.
  - intros Hn Ht Hl.
    destruct r; try done; reduce_world; rewrite Ht; reduce_world; try done.
    by destruct (Hl l).
Qed.

Lemma track_transform_answer_witness :
  let w' := task (tryExecute (TrackCb (Some answer_undefined) "signup" None))
              (set_entrolytics true tagged_page) in
  calls w' = [] ∧ uncaught w' = ["TypeError"].
Proof.
  refine (proj2 (track_transform_answer answer_undefined "signup" None
                   (set_entrolytics true tagged_page) eq_refl) _ eq_refl _);
    [discriminate | intros l; discriminate].
Defined.

(** X7. [OutboundLink]'s click handler, with no transform configured,
    builds a fresh object from the caller's data, in which the data's own
    entries win and [url] is [href] when the data has none; it dispatches it
    under the given event name, ['outbound_link'] by default (at once when
    the tracker is there, queued when it is not), and then always runs the
    caller's own [onClick]. *)
Theorem OutboundLink_click (href : string) (event : option string) (data : option loc)
    (onClick : option (M unit)) (w : World) :
  let name := default "outbound_link" event in
  ∃ l o w1,
    store w !! l = None ∧
    OutboundLink_handleClick None href event data onClick w =
      match onClick with Some f => f w1 | None => (Normal tt, w1) end ∧
    store w1 !! l = Some o ∧
    (∀ k v, spread (store w) data !! k = Some v → o !! k = Some v) ∧
    (spread (store w) data !! "url" = None → o !! "url" = Some (VStr href)) ∧
    (has_window w = true → entrolytics w = true →
     calls w1 = calls w ++ [(Track (VStr name) (VRef l), store w1)]) ∧
    (has_window w = true → entrolytics w = false →
     calls w1 = calls w ∧ timers w1 = timers w ++ [TrackCb None name (Some l)]).
Proof.
  cbv zeta. set (name := default "outbound_link" event).
  set (l := fresh (dom (store w))).
  set (o := spread (store w) data ∪ {["url" := VStr href]}).
  set (w0 := set_store (<[l := o]> (store w)) w).
  assert (Ho : (∀ k v, spread (store w) data !! k = Some v → o !! k = Some v) ∧
               (spread (store w) data !! "url" = None → o !! "url" = Some (VStr href))).
  { split.
    - intros k v H. by apply lookup_union_Some_l.
    - intros H. unfold o. rewrite lookup_union_r by done. apply lookup_singleton_eq. }
  destruct Ho as [Ho1 Ho2].
  assert (E : ∀ w1, track None name (Some l) w0 = (Normal tt, w1) →
              OutboundLink_handleClick None href event data onClick w =
                match onClick with Some f => f w1 | None => (Normal tt, w1) end).
  { intros w1 H. unfold OutboundLink_handleClick, mbind, M_bind, bind, read_store, alloc_object.
    cbv beta zeta iota. fold l. fold o. fold w0. fold name. rewrite H. by destruct onClick. }
  unfold track, waitForTracker in E.
  destruct (has_window w) eqn:Hw; cbn [negb has_window w0 set_store] in E; rewrite Hw in E;
    cbn [negb] in E.
  - destruct (entrolytics w) eqn:He.
    + unfold tryExecute in E. cbn [entrolytics w0 set_store] in E. rewrite He in E.
      set (w0' := set_invoked _ _) in E.
      destruct (plain_runs (TrackCb None name (Some l)) w0' I He) as (A & _ & _).
      destruct (track_forwards_arguments name (Some l) w0' He) as [C S].
      destruct (run_callback (TrackCb None name (Some l)) w0') as [r w1] eqn:R.
      simpl in A, C, S. subst r.
      exists l, o, w1. split; [apply fresh_unused|]. split; [by apply E|].
      split; [|split; [done|split; [done|split; [done|done]]]].
      rewrite S; [apply lookup_insert_eq|]. apply elem_of_dom. eexists. apply lookup_insert_eq.
    + rewrite tryExecute_absent in E by done.
      eexists l, o, _. split; [apply fresh_unused|]. split; [by apply E|].
      split; [apply lookup_insert_eq|]. by repeat split.
  - exists l, o, w0. split; [apply fresh_unused|]. split; [by apply E|].
    split; [apply lookup_insert_eq|]. by repeat split.
Qed.

Lemma OutboundLink_click_witness :
  ∃ l o w1,
    OutboundLink_handleClick None "https://example.com" None (Some 1%positive) None shop_page
      = (Normal tt, w1) ∧
    store w1 !! l = Some o ∧
    o !! "sku" = Some (VStr "abc") ∧
    o !! "url" = Some (VStr "https://example.com") ∧
    calls w1 = [(Track (VStr "outbound_link") (VRef l), store w1)].
Proof.
  destruct (OutboundLink_click "https://example.com" None (Some 1%positive) None shop_page)
    as (l & o & w1 & _ & E & S & K & U & C & _).
  exists l, o, w1. split; [exact E|]. split; [exact S|].
  split; [apply K; vm_compute; reflexivity|].
  split; [apply U; vm_compute; reflexivity|].
  exact (C eq_refl eq_refl).
Defined.

Lemma waitForTracker_hands_over cb w :
  has_window w = true →
  let w' := task (waitForTracker cb) w in
  has_window w' = true ∧ handed_over w' = S (handed_over w).
Proof.
  intros Hw. cbv zeta. rewrite task_waitForTracker by done. unfold handed_over.
  destruct (entrolytics w) eqn:He.
  - destruct (task_tryExecute_present cb w He) as (A & _ & B & C & _).
    simpl in *. rewrite A, B, C, length_app. simpl. split; [done|lia].
  - unfold task. rewrite tryExecute_absent by done. simpl. rewrite length_app. simpl.
    split; [done|lia].
Qed.

(** X8. [useTrackPageView] dispatches one page view per change of
    url: over any sequence of renders in a browser, the number of closures
    handed to the bridge grows by the number of renders whose url differs
    from the previous one; a changed referrer alone dispatches nothing. *)
Theorem page_views_follow_url_changes (rs : list (string * option string))
    (prev : option string) (w : World) :
  has_window w = true →
  handed_over (renders rs (prev, w)).2 = handed_over w + length (url_changes prev rs).
Proof.
  intros Hw. unfold renders. revert prev w Hw.
  induction rs as [|[u r] rs IH]; intros prev w Hw.
  - simpl. lia.
  - cbn [foldl url_changes fst snd]. unfold useTrackPageView_effect at 2.
    cbn [fst snd]. destruct (bool_decide (prev = Some u)) eqn:B.
    + apply bool_decide_eq_true in B. subst prev. by apply IH.
    + unfold trackPageView.
      destruct (waitForTracker_hands_over (TrackPageViewCb (Some u) r) w Hw) as [H1 H2].
      rewrite (IH (Some u) _ H1), H2. simpl. lia.
Qed.

Lemma page_views_follow_url_changes_witness :
  handed_over (renders [("/a", None); ("/a", Some "/x"); ("/b", None); ("/a", None)]
                 (None, waiting_page)).2 = 3.
Proof.
  exact (page_views_follow_url_changes
           [("/a", None); ("/a", Some "/x"); ("/b", None); ("/a", None)]
           None waiting_page eq_refl).
Defined.

(** X9. With no transform involved, running a dispatch closure never
    throws and never changes an object that existed before: payloads are
    always built in fresh objects. *)
Theorem plain_closures_keep_caller_objects (cb : callback) (w : World) :
  plain cb →
  let w' := task (run_callback cb) w in
  uncaught w' = uncaught w ∧ ∀ l, l ∈ dom (store w) → store w' !! l = store w !! l.
Proof.
  intros Hp. cbv zeta. unfold task.
  assert (G : ∀ l, l ∈ dom (store w) → store (run_callback cb w).2 !! l = store w !! l).
  { intros l Hl. pose proof (fresh_other _ _ Hl) as Hf.
    destruct cb as [[f|] n d|u r|n r c d|u d|d|u t]; [done|..].
    - by apply track_forwards_arguments_any.
    - rewrite trackPageView_body_eq. unfold entrolytics_track. simpl.
      destruct (entrolytics w); simpl; by rewrite lookup_insert_ne.
    - unfold_bodies. reduce_world.
      destruct (truthy (of_opt_str (tagRef w))); reduce_world;
        destruct (entrolytics w); reduce_world; by rewrite !lookup_insert_ne.
    - unfold_bodies. reduce_world. destruct (entrolytics w); reduce_world;
        by rewrite lookup_insert_ne.
    - unfold_bodies. reduce_world. by destruct (entrolytics w).
    - unfold_bodies. reduce_world. destruct (entrolytics w); reduce_world;
        by rewrite lookup_insert_ne. }
  assert (N : (run_callback cb w).1 = Normal tt ∧ uncaught (run_callback cb w).2 = uncaught w).
  { destruct cb as [[f|] n d|u r|n r c d|u d|d|u t]; [done|..];
      unfold_bodies; reduce_world;
      repeat (case_match; simplify_eq; reduce_world); done. }
  destruct N as [N U]. destruct (run_callback cb w) as [[[]|e] w1]; simpl in *; [|done].
  split; [done|exact G].
Qed.

Lemma plain_closures_keep_caller_objects_witness :
  let w' := task (run_callback (TrackRevenueCb "purchase" 10 "USD" (Some 1%positive))) shop_page in
  uncaught w' = [] ∧
  ∀ l, l ∈ dom (store shop_page) → store w' !! l = store shop_page !! l.
Proof.
  exact (plain_closures_keep_caller_objects
           (TrackRevenueCb "purchase" 10 "USD" (Some 1%positive)) shop_page I).
Defined.

(** X10. [TrackClick]'s click handler with the tracker loaded. Without a
    transform the tracker receives the event name and the caller's data, and
    the child's own [onClick] then runs. With a transform that answers
    [undefined] or a primitive while a tag is set, the handler throws a
    TypeError before the child's [onClick] is reached and the tracker is not
    called. *)
Theorem TrackClick_click (f : beforeSend_fn) (event : string) (data : option loc)
    (onClick : option (M unit)) (w : World) :
  has_window w = true → entrolytics w = true →
  (∃ w1, TrackClick_handleClick None event data onClick w =
           match onClick with Some g => g w1 | None => (Normal tt, w1) end ∧
         calls w1 = calls w ++ [(Track (VStr event) (of_opt_ref data), store w1)]) ∧
  (transform_answer f event data w ≠ VNull →
   (∀ l, transform_answer f event data w ≠ VRef l) →
   truthy (of_opt_str (tagRef w)) = true →
   ∃ w1, TrackClick_handleClick (Some f) event data onClick w = (Throws "TypeError", w1) ∧
         calls w1 = calls w).
Proof.
  intros Hw He. split.
  - set (w0 := set_invoked (invoked w ++ [TrackCb None event data]) w).
    destruct (plain_runs (TrackCb None event data) w0 I He) as (A & _ & _).
    destruct (track_forwards_arguments event data w0 He) as [C _].
    destruct (run_callback (TrackCb None event data) w0) as [r w1] eqn:R.
    simpl in A, C. subst r. exists w1. split; [|done].
    unfold TrackClick_handleClick, mbind, M_bind, bind, track, waitForTracker, tryExecute.
    rewrite Hw, He. cbn [negb]. fold w0. rewrite R. by destruct onClick.
  - intros Hn Hr Ht.
    unfold TrackClick_handleClick, mbind, M_bind, bind, track, waitForTracker, tryExecute.
    rewrite Hw, He. cbn [negb].
    unfold transform_answer in Hn, Hr.
    unfold_bodies. reduce_world.
    destruct (f "event" _ _) as [r h]. simpl in Hn, Hr. reduce_world.
    destruct r; try done; reduce_world; rewrite Ht; reduce_world; eauto.
    by destruct (Hr l).
Qed.

Lemma TrackClick_click_witness :
  let w := set_entrolytics true tagged_page in
  (∃ w1, TrackClick_handleClick None "cta" None None w = (Normal tt, w1) ∧
         calls w1 = [(Track (VStr "cta") VUndef, store w1)]) ∧
  (∃ w1, TrackClick_handleClick (Some answer_undefined) "cta" None None w
           = (Throws "TypeError", w1) ∧ calls w1 = []).
Proof.
  intros w.
  destruct (TrackClick_click answer_undefined "cta" None None w eq_refl eq_refl) as [A B].
  split; [exact A|]. apply B; [discriminate|intros l; discriminate|reflexivity].
Defined.



End BridgeExtra.

(** ** More on the script loader *)

Module LoaderExtra.
Import Loader LoaderProps Pages.

Lemma remove_first_absent i l : count_in i l = 0 → remove_first i l = l.
Proof.
  induction l as [|e l IH]; [done|]. rewrite count_in_cons. simpl.
  destruct (has_id i e); [done|]. intros H. by rewrite IH.
Qed.

Lemma remove_first_one i l :
  count_in i (remove_first i l) = count_in i l - 1.
Proof.
  induction l as [|e l IH]; [done|]. simpl.
  destruct (has_id i e) eqn:E; rewrite !count_in_cons, ?E; [lia|]. simpl. apply IH.
Qed.

Lemma existsb_count i l : existsb (has_id i) l = false → count_in i l = 0.
Proof.
  induction l as [|e l IH]; [done|]. simpl. rewrite count_in_cons.
  destruct (has_id i e); [done|]. simpl. apply IH.
Qed.

Lemma count_existsb i l : count_in i l = 0 → existsb (has_id i) l = false.
Proof.
  induction l as [|e l IH]; [done|]. simpl. rewrite count_in_cons.
  destruct (has_id i e); [done|]. simpl. apply IH.
Qed.

Lemma document_eta d : mkDocument (has_window d) (head d) (body d) = d.
Proof. by destruct d. Qed.

(** X12. The effect's cleanup removes exactly one element with the
    reserved id when there is one, and leaves a document without such an
    element exactly as it was. *)
Theorem cleanup_removes_one (d : Document) :
  count_id SCRIPT_ID (cleanup d) = count_id SCRIPT_ID d - 1 ∧
  (count_id SCRIPT_ID d = 0 → cleanup d = d).
Proof.
  unfold cleanup, remove_by_id. rewrite (count_id_split _ d). split.
  - destruct (existsb (has_id SCRIPT_ID) (head d)) eqn:E;
      rewrite count_id_split; simpl; rewrite remove_first_one.
    + assert (count_in SCRIPT_ID (head d) ≠ 0); [|lia].
      intros H. apply count_existsb in H. congruence.
    + apply existsb_count in E. lia.
  - intros H.
    rewrite count_existsb by lia. rewrite remove_first_absent by lia. apply document_eta.
Qed.

Lemma count_zero_find i l : count_in i l = 0 → find (has_id i) l = None.
Proof.
  induction l as [|e l IH]; [done|]. rewrite count_in_cons. simpl.
  destruct (has_id i e); [done|]. apply IH.
Qed.

Lemma remove_first_last i l e :
  count_in i l = 0 → has_id i e = true → remove_first i (l ++ [e]) = l.
Proof.
  intros H He. induction l as [|x l IH]; simpl; [by rewrite He|].
  rewrite count_in_cons in H. destruct (has_id i x); [done|]. by rewrite IH.
Qed.

Lemma inject_fresh p d s :
  has_window d = true → count_id SCRIPT_ID d = 0 →
  inject p d s = (mkDocument true (head d ++ [build_script p]) (body d), s, true).
Proof.
  intros Hw H0. unfold inject, getElementById. rewrite Hw. simpl.
  by rewrite count_zero_find.
Qed.

(** The cleanup undoes the appending of an element with the reserved id to
    the head of a document that had none. *)
Lemma cleanup_appended d e :
  count_id SCRIPT_ID d = 0 → has_id SCRIPT_ID e = true →
  cleanup (mkDocument (has_window d) (head d ++ [e]) (body d)) = d.
Proof.
  intros H0 He. rewrite count_id_split in H0.
  unfold cleanup, remove_by_id. simpl.
  assert (E : existsb (has_id SCRIPT_ID) (head d ++ [e]) = true).
  { rewrite existsb_app. simpl. by rewrite He, orb_true_r. }
  rewrite E, remove_first_last by (done || lia). apply document_eta.
Qed.

(** X13. Mounting the provider on a browser page that has no
    element with the reserved id and then running the cleanup gives back
    the document as it was. *)
Theorem mount_then_cleanup_restores (p : ProviderProps) (d : Document) (s : Instance) :
  has_window d = true → count_id SCRIPT_ID d = 0 →
  cleanup (inject p d s).1.1 = d.
Proof.
  intros Hw H0. rewrite inject_fresh by done. cbn [fst].
  rewrite <- Hw at 1. by apply cleanup_appended.
Qed.

Lemma mount_then_cleanup_restores_witness :
  cleanup (inject some_props plain_page (mkInstance false false)).1.1 = plain_page.
Proof.
  apply (mount_then_cleanup_restores some_props plain_page (mkInstance false false));
    reflexivity.
Defined.

(** X14. When a configuration prop changes (cleanup, then the effect
    again with the new props), the page ends up as if the provider had been
    mounted with the new props only: exactly one script element, built from
    the new props. *)
Theorem changed_props_replace_script (p1 p2 : ProviderProps) (d : Document) :
  has_window d = true → count_id SCRIPT_ID d = 0 →
  let d' := foldl apply_lifecycle d [Mount p1; Cleanup; Mount p2] in
  d' = foldl apply_lifecycle d [Mount p2] ∧
  getElementById SCRIPT_ID d' = Some (build_script p2) ∧
  count_id SCRIPT_ID d' = 1.
Proof.
  intros Hw H0. cbv zeta. cbn [foldl apply_lifecycle].
  assert (E : ∀ s, cleanup (inject p1 d s).1.1 = d).
  { intros s. rewrite inject_fresh by done. cbn [fst].
    rewrite <- Hw at 1. by apply cleanup_appended. }
  rewrite E. split; [done|].
  rewrite inject_fresh by done. simpl. rewrite count_id_split in *.
  split.
  - unfold getElementById. simpl. rewrite <- app_assoc. 
    assert (F : ∀ l r, count_in SCRIPT_ID l = 0 →
                find (has_id SCRIPT_ID) (l ++ build_script p2 :: r) = Some (build_script p2)).
    { clear. induction l as [|x l IH]; intros r H; [done|].
      rewrite count_in_cons in H. simpl. destruct (has_id SCRIPT_ID x); [done|]. by apply IH. }
    apply F. lia.
  - simpl. rewrite count_in_app, count_in_cons. simpl. change (count_in SCRIPT_ID []) with 0. lia.
Qed.

Lemma changed_props_replace_script_witness :
  let p2 := mkProps "site-2" (Some "https://eu.example.com/") no_flags in
  let d' := foldl apply_lifecycle plain_page [Mount some_props; Cleanup; Mount p2] in
  d' = foldl apply_lifecycle plain_page [Mount p2] ∧
  getElementById SCRIPT_ID d' = Some (build_script p2) ∧
  count_id SCRIPT_ID d' = 1.
Proof.
  apply (changed_props_replace_script some_props
           (mkProps "site-2" (Some "https://eu.example.com/") no_flags) plain_page);
    reflexivity.
Defined.

Lemma strip_app_slash h : strip_trailing_slash (h +:+ "/") = h.
Proof.
  induction h as [|c h IH]; [done|].
  change (String c h +:+ "/") with (String c (h +:+ "/")).
  simpl. rewrite IH. destruct h; done.
Qed.

Lemma strip_no_slash h : (∀ h', h ≠ h' +:+ "/") → strip_trailing_slash h = h.
Proof.
  induction h as [|c h IH]; [done|]. intros H. simpl.
  destruct h as [|c' h'].
  - destruct (Ascii.eqb c "/") eqn:E; [|done].
    apply Ascii.eqb_eq in E. subst c. by destruct (H "").
  - rewrite IH; [done|]. intros h'' E. apply (H (String c h'')). simpl. by rewrite E.
Qed.

(** X15. The script URL is the host followed by [/script-edge.js] or
    [/script.js]; one trailing slash of the host is dropped, a host without
    one is used as it is, and a missing host is the default host. *)
Theorem script_src_ignores_one_trailing_slash (i h : string) (f : Flags) :
  let scriptPath := if default true (useEdgeRuntime f) then "/script-edge.js" else "/script.js" in
  src (build_script (mkProps i (Some (h +:+ "/")) f)) = h +:+ scriptPath ∧
  ((∀ h', h ≠ h' +:+ "/") → src (build_script (mkProps i (Some h) f)) = h +:+ scriptPath) ∧
  src (build_script (mkProps i None f)) = DEFAULT_HOST +:+ scriptPath.
Proof.
  cbv beta zeta iota delta [build_script src host flags].
  cbn [default from_option]. unfold Datatypes.id.
  split; [by rewrite strip_app_slash|]. split; [|done].
  intros H. by rewrite strip_no_slash.
Qed.

Lemma script_src_ignores_one_trailing_slash_witness :
  src (build_script (mkProps "site-1" (Some ("https://eu.example.com" +:+ "/")) no_flags))
    = "https://eu.example.com/script-edge.js" ∧
  src (build_script (mkProps "site-1" None no_flags))
    = "https://ng.entrolytics.click/script-edge.js".
Proof.
  pose proof (script_src_ignores_one_trailing_slash "site-1" "https://eu.example.com" no_flags)
    as (A & _ & C).
  split; [exact A | exact C].
Defined.

Lemma find_injected e l r :
  count_in SCRIPT_ID l = 0 → has_id SCRIPT_ID e = true →
  find (has_id SCRIPT_ID) (l ++ e :: r) = Some e.
Proof.
  intros H He. induction l as [|x l IH]; simpl; [by rewrite He|].
  rewrite count_in_cons in H. destruct (has_id SCRIPT_ID x); [done|]. by apply IH.
Qed.

Lemma dataset_websiteId p : dataset (build_script p) !! "websiteId" = Some (websiteId p).
Proof.
  cbv beta zeta iota delta [build_script dataset].
  destruct (domains (flags p)) as [[|x xs]|]; destruct (tag (flags p)) as [t|];
    unfold set_if; repeat case_match;
    rewrite ?lookup_insert_ne by done; apply lookup_singleton_eq.
Qed.

Lemma lookup_set_if b k v (m : gmap string string) k' :
  set_if b k v m !! k' = if b && bool_decide (k = k') then Some v else m !! k'.
Proof.
  unfold set_if. destruct b; simpl; [|done].
  case_bool_decide; [subst; apply lookup_insert_eq|by apply lookup_insert_ne].
Qed.

Lemma lookup_set_if_ne b k v (m : gmap string string) k' :
  k ≠ k' → set_if b k v m !! k' = m !! k'.
Proof. intros H. unfold set_if. destruct b; [by apply lookup_insert_ne|done]. Qed.

(** X16. The data attributes of the injected script: [websiteId]
    always; [autoTrack] only as ['false']; [doNotTrack], [excludeSearch] and
    [excludeHash] only as ['true']; [domains] only for a non-empty list,
    joined with commas; [tag] only when non-empty; and no other attribute. *)
Theorem script_dataset (p : ProviderProps) :
  let f := flags p in
  let ds := dataset (build_script p) in
  ds !! "websiteId" = Some (websiteId p) ∧
  ds !! "autoTrack" = (if default true (autoTrack f) then None else Some "false") ∧
  ds !! "doNotTrack" = (if default false (respectDnt f) then Some "true" else None) ∧
  ds !! "domains" = match domains f with
                    | Some (x :: xs) => Some (String.concat "," (x :: xs))
                    | _ => None
                    end ∧
  ds !! "tag" = match tag f with
                | Some t => if String.eqb t "" then None else Some t
                | None => None
                end ∧
  ds !! "excludeSearch" = (if default false (excludeSearch f) then Some "true" else None) ∧
  ds !! "excludeHash" = (if default false (excludeHash f) then Some "true" else None) ∧
  dom ds ⊆ ({[ "websiteId"; "autoTrack"; "doNotTrack"; "domains"; "tag";
              "excludeSearch"; "excludeHash" ]} : gset string).
Proof.
  cbv beta zeta iota delta [build_script dataset].
  destruct (flags p) as [at_ dnt doms edge tg es eh]. cbn [autoTrack respectDnt domains tag
    excludeSearch excludeHash useEdgeRuntime].
  repeat split.
  1-7: destruct doms as [[|x xs]|]; destruct tg as [t|];
       rewrite ?lookup_set_if; simpl;
       repeat (rewrite ?lookup_insert_ne by done; rewrite ?lookup_set_if; simpl);
       rewrite ?lookup_insert_eq, ?lookup_singleton_eq, ?lookup_singleton_ne by done;
       rewrite ?andb_false_r, ?andb_true_r; try done.
  all: try (by destruct (default true at_)).
  all: try (by destruct (default false dnt)).
  all: try (by destruct (default false es)).
  all: try (by destruct (default false eh)).
  all: try (by destruct (String.eqb t "")).
  intros k Hk. apply elem_of_dom in Hk as [v Hv].
  match goal with |- k ∈ ?K => destruct (decide (k ∈ K)) as [|n]; [done|] end.
  exfalso.
  assert (N : "websiteId" ≠ k ∧ "autoTrack" ≠ k ∧ "doNotTrack" ≠ k ∧ "domains" ≠ k ∧
              "tag" ≠ k ∧ "excludeSearch" ≠ k ∧ "excludeHash" ≠ k).
  { repeat split; intros <-; apply n; set_solver. }
  destruct N as (N1 & N2 & N3 & N4 & N5 & N6 & N7).
  destruct doms as [[|x xs]|]; destruct tg as [t|]; revert Hv;
    rewrite ?lookup_set_if_ne, ?lookup_insert_ne, ?lookup_singleton_ne by done;
    rewrite ?lookup_set_if_ne, ?lookup_insert_ne, ?lookup_singleton_ne by done;
    rewrite ?lookup_set_if_ne, ?lookup_insert_ne, ?lookup_singleton_ne by done; done.
Qed.

End LoaderExtra.

(** ** More on the [Analytics] component *)

Module AnalyticsExtra.
Import JS Analytics AnalyticsFacts Pages.

Lemma or_str_first_set a b c :
  match first_set [a; b; c] with
  | Some i => or_str (or_str a b) c = Some i ∧ truthy (VStr i) = true
  | None => or_str (or_str a b) c = c
  end.
Proof.
  unfold or_str. simpl.
  destruct a as [a|]; simpl; [destruct (String.eqb a "") eqn:Ea; simpl|];
    (destruct b as [b|]; simpl; [destruct (String.eqb b "") eqn:Eb; simpl|]);
    rewrite ?Ea, ?Eb; simpl;
    (destruct c as [c|]; simpl; [destruct (String.eqb c "") eqn:Ec; simpl|]);
    rewrite ?Ea, ?Eb, ?Ec; simpl; done.
Qed.

Lemma Analytics_resolution_lemma props env i :
  first_set [websiteId props;
             processEnv env !! "REACT_APP_ENTROLYTICS_WEBSITE_ID";
             importMetaEnv env !! "VITE_ENTROLYTICS_WEBSITE_ID"] = Some i →
  ∃ h, Analytics props env = (Some (Loader.mkProps i h (config props)), []).
Proof.
  intros Hi.
  pose proof (or_str_first_set (websiteId props)
                (processEnv env !! "REACT_APP_ENTROLYTICS_WEBSITE_ID")
                (importMetaEnv env !! "VITE_ENTROLYTICS_WEBSITE_ID")) as F.
  rewrite Hi in F. destruct F as [F T].
  eexists. unfold Analytics. rewrite F. change (of_opt_str (Some i)) with (VStr i). rewrite T.
  rewrite andb_false_r. simpl. reflexivity.
Qed.

(** X17. The website id [Analytics] passes on is the first non-empty
    one of the [websiteId] prop, the Create React App variable and the Vite
    variable, in that order, and nothing is warned about; the host is
    resolved in the same order and, when none is non-empty, is whatever the
    Vite variable holds. *)
Theorem Analytics_resolution (props : AnalyticsProps) (env : Env) (i : string) :
  first_set [websiteId props;
             processEnv env !! "REACT_APP_ENTROLYTICS_WEBSITE_ID";
             importMetaEnv env !! "VITE_ENTROLYTICS_WEBSITE_ID"] = Some i →
  let hosts := [host props;
                processEnv env !! "REACT_APP_ENTROLYTICS_HOST";
                importMetaEnv env !! "VITE_ENTROLYTICS_HOST"] in
  ∃ h, Analytics props env = (Some (Loader.mkProps i h (config props)), []) ∧
       match first_set hosts with
       | Some h' => h = Some h'
       | None => h = importMetaEnv env !! "VITE_ENTROLYTICS_HOST"
       end.
Proof.
  intros Hi. cbv zeta.
  pose proof (or_str_first_set (websiteId props)
                (processEnv env !! "REACT_APP_ENTROLYTICS_WEBSITE_ID")
                (importMetaEnv env !! "VITE_ENTROLYTICS_WEBSITE_ID")) as F.
  rewrite Hi in F. destruct F as [F T].
  pose proof (or_str_first_set (host props)
                (processEnv env !! "REACT_APP_ENTROLYTICS_HOST")
                (importMetaEnv env !! "VITE_ENTROLYTICS_HOST")) as G.
  eexists. split.
  - unfold Analytics. rewrite F. change (of_opt_str (Some i)) with (VStr i). rewrite T.
    rewrite andb_false_r. simpl. reflexivity.
  - set (fs := first_set _) in G |- *. destruct fs; [by destruct G|done].
Qed.

Lemma Analytics_resolution_witness :
  ∃ h, Analytics (mkAnalyticsProps (Some "") None Loader.no_flags) cra_page =
         (Some (Loader.mkProps "from-cra" h Loader.no_flags), []) ∧ h = None.
Proof.
  exact (Analytics_resolution (mkAnalyticsProps (Some "") None Loader.no_flags) cra_page
           "from-cra" eq_refl).
Defined.

(** X18. Rendering [Analytics] with a resolvable website id into
    a browser page that has no script of the reserved id appends exactly one
    script element to the head, carrying that id as its [websiteId]
    attribute. *)
Theorem Analytics_mounts_one_script (props : AnalyticsProps) (env : Env) (i : string)
    (d : Loader.Document) :
  first_set [websiteId props;
             processEnv env !! "REACT_APP_ENTROLYTICS_WEBSITE_ID";
             importMetaEnv env !! "VITE_ENTROLYTICS_WEBSITE_ID"] = Some i →
  Loader.has_window d = true → Loader.count_id Loader.SCRIPT_ID d = 0 →
  let d' := render_into props env d in
  ∃ e, Loader.head d' = Loader.head d ++ [e] ∧ Loader.body d' = Loader.body d ∧
       Loader.getElementById Loader.SCRIPT_ID d' = Some e ∧
       Loader.dataset e !! "websiteId" = Some i ∧
       Loader.count_id Loader.SCRIPT_ID d' = 1.
Proof.
  intros Hi Hw H0. cbv zeta.
  destruct (Analytics_resolution_lemma props env i Hi) as (h & E).
  unfold render_into. rewrite E. simpl.
  rewrite LoaderExtra.inject_fresh by done. simpl.
  set (p := Loader.mkProps i h (config props)).
  exists (Loader.build_script p). split; [done|]. split; [done|].
  rewrite LoaderProps.count_id_split in *.
  split; [|split].
  - unfold Loader.getElementById. simpl. rewrite <- app_assoc.
    apply LoaderExtra.find_injected; [lia|done].
  - apply LoaderExtra.dataset_websiteId.
  - simpl. rewrite LoaderProps.count_in_app, LoaderProps.count_in_cons. simpl.
    change (Loader.count_in Loader.SCRIPT_ID []) with 0. lia.
Qed.

Lemma Analytics_mounts_one_script_witness :
  let d' := render_into (mkAnalyticsProps (Some "") None Loader.no_flags) cra_page plain_page in
  ∃ e, Loader.head d' = Loader.head plain_page ++ [e] ∧
       Loader.body d' = Loader.body plain_page ∧
       Loader.getElementById Loader.SCRIPT_ID d' = Some e ∧
       Loader.dataset e !! "websiteId" = Some "from-cra" ∧
       Loader.count_id Loader.SCRIPT_ID d' = 1.
Proof.
  exact (Analytics_mounts_one_script (mkAnalyticsProps (Some "") None Loader.no_flags)
           cra_page "from-cra" plain_page eq_refl eq_refl eq_refl).
Defined.

End AnalyticsExtra.

(** ** More on form tracking *)

Module FormsExtra.
Import JS Http Forms FormsProps HttpProps.

Ltac absent_key := rewrite ?lookup_insert_ne by done; by apply lookup_singleton_ne.
Ltac present_key :=
  repeat (rewrite lookup_insert_ne by done);
  first [apply lookup_insert_eq | apply lookup_singleton_eq].

Section Hook.
Variable config : Config.
Variable options : Options.

Abbreviation fire := (fire config options).
Abbreviation addressed := (AutoTrack.addressed config options).

Lemma json_lookup (o : obj) k :
  json_object o !! k = match o !! k with
                       | Some VUndef => None
                       | x => x
                       end.
Proof.
  unfold json_object. destruct (o !! k) as [v|] eqn:E.
  - destruct (decide (v = VUndef)) as [->|H].
    + apply map_lookup_filter_None. right. intros v Hv. simpl. congruence.
    + transitivity (Some v); [|by destruct v].
      by apply map_lookup_filter_Some_2.
  - apply map_lookup_filter_None. by left.
Qed.

(** What one [trackEvent] call of a handler adds to the network log. *)
Lemma fire_in_browser data b :
  has_window b = true →
  data !! "formId" = None → data !! "urlPath" = None → data !! "website" = None →
  ∃ r, requests (fire data b) = requests b ++ [r] ∧
       addressed (pathname b) r ∧
       (∀ k v, data !! k = Some v → body r !! k = match v with VUndef => None | _ => Some v end).
Proof.
  intros Hw H1 H2 H3. unfold Forms.fire, trackEvent. rewrite async_world, Hw. simpl.
  unfold try_post_or_log, fetch_post.
  set (o := _ ∪ _ ∪ _).
  exists (mkRequest (AutoTrack.forms_endpoint config) "POST" true (json_object o)).
  split; [by destruct (network b (length (requests b)))|].
  split.
  - assert (L1 : o !! "website" = Some (VStr (websiteId config))).
    { unfold o. rewrite lookup_union_r; [apply lookup_singleton_eq|].
      apply lookup_union_None_2; [exact H3|].
      rewrite !lookup_insert_ne by done. by apply lookup_singleton_ne. }
    assert (L2 : o !! "formId" = Some (VStr (formId options))).
    { unfold o. apply lookup_union_Some_l. rewrite lookup_union_r by done.
      rewrite !lookup_insert_ne by done. rewrite lookup_singleton_eq.
      unfold get. by rewrite H1. }
    assert (L3 : o !! "urlPath" = Some (VStr (pathname b))).
    { unfold o. apply lookup_union_Some_l. rewrite lookup_union_r by done.
      rewrite lookup_insert_eq. unfold get. by rewrite H2. }
    unfold AutoTrack.addressed. cbn [url method keepalive body].
    rewrite !json_lookup, L1, L2, L3. done.
  - intros k v Hk. cbn [body]. rewrite json_lookup. unfold o.
    erewrite lookup_union_Some_l; [|by apply lookup_union_Some_l]. by destruct v.
Qed.

Lemma fire_no_window data b : has_window b = false → fire data b = b.
Proof. intros Hw. unfold Forms.fire, trackEvent. rewrite async_world, Hw. done. Qed.

Lemma fire_frame data b :
  pathname (fire data b) = pathname b ∧ clock (fire data b) = clock b ∧
  ticks (fire data b) = ticks b.
Proof.
  unfold Forms.fire, trackEvent. rewrite async_world.
  destruct (has_window b); simpl; [|done].
  unfold try_post_or_log, fetch_post. by destruct (network b (length (requests b))).
Qed.

Abbreviation grows := (AutoTrack.grows config options).

Lemma grows_refl b : grows b b.
Proof.
  unfold AutoTrack.grows. repeat split; try done. exists []. by rewrite app_nil_r.
Qed.

Lemma grows_trans b1 b2 b3 : grows b1 b2 → grows b2 b3 → grows b1 b3.
Proof.
  intros (P1 & W1 & C1 & T1 & rs1 & R1 & F1 & N1) (P2 & W2 & C2 & T2 & rs2 & R2 & F2 & N2).
  unfold AutoTrack.grows. repeat split; try congruence; try lia.
  exists (rs1 ++ rs2). split; [by rewrite R2, R1, app_assoc|]. split.
  - apply Forall_app. split; [done|]. by rewrite <- P1.
  - intros H. rewrite N1, N2 by congruence. done.
Qed.

Lemma Date_now_grows b : grows b (Date_now b).2.
Proof.
  unfold AutoTrack.grows, Date_now. simpl. repeat split; try done; try lia.
  exists []. by rewrite app_nil_r.
Qed.

Lemma since_grows t b : grows b (since t b).2.
Proof.
  unfold since. destruct t as [n|]; [|apply grows_refl].
  destruct (truthy (VNum n)); [apply Date_now_grows|apply grows_refl].
Qed.

Lemma fire_grows data b :
  data !! "formId" = None → data !! "urlPath" = None → data !! "website" = None →
  grows b (fire data b).
Proof.
  intros H1 H2 H3. destruct (has_window b) eqn:Hw.
  - destruct (fire_in_browser data b Hw H1 H2 H3) as (r & R & A & _).
    destruct (fire_frame data b) as (P & C & T).
    unfold AutoTrack.grows. rewrite fire_has_window. repeat split; try done; try lia.
    exists [r]. split; [done|]. split; [by constructor|]. congruence.
  - rewrite fire_no_window by done. apply grows_refl.
Qed.

(** Reads the clock, then sends one event built from the reading. *)
Lemma since_fire_grows (data : value → obj) t b :
  (∀ v, data v !! "formId" = None ∧ data v !! "urlPath" = None ∧ data v !! "website" = None) →
  grows b (fire (data (since t b).1) (since t b).2).
Proof.
  intros H. eapply grows_trans; [apply since_grows|].
  destruct (H (since t b).1) as (A & B & C). by apply fire_grows.
Qed.

Lemma trackStart_grows s b : grows b (trackStart config options s b).2.
Proof.
  unfold trackStart. destruct (startTime s); [apply grows_refl|]. simpl.
  eapply grows_trans; [apply Date_now_grows|]. apply fire_grows; absent_key.
Qed.

Lemma pair_split {A B C} (p : A * B) (f : A → B → C) :
  (let '(x, y) := p in f x y) = f p.1 p.2.
Proof. by destruct p. Qed.

Lemma trackFieldFocus_grows n t k s b :
  grows b (trackFieldFocus config options n t k s b).2.
Proof.
  unfold trackFieldFocus.
  set (st1 := if negb (hasInteracted s) then _ else _).
  assert (G1 : grows b st1.2).
  { unfold st1. destruct (hasInteracted s); simpl; [apply grows_refl|apply trackStart_grows]. }
  clearbody st1. destruct st1 as [s1 b1]. simpl in G1.
  set (st2 := if trackTiming options then _ else _).
  assert (G2 : grows b1 st2.2).
  { unfold st2. destruct (trackTiming options); simpl; [apply Date_now_grows|apply grows_refl]. }
  clearbody st2. destruct st2 as [s2 b2]. simpl in G2. cbn [startTime].
  rewrite pair_split. cbn [snd].
  eapply grows_trans; [exact G1|]. eapply grows_trans; [exact G2|].
  apply (since_fire_grows (λ v, <["timeSinceStart" := v]> _)).
  intros v. repeat split; absent_key.
Qed.






Lemma last_body_fire data b :
  has_window b = true →
  data !! "formId" = None → data !! "urlPath" = None → data !! "website" = None →
  ∀ k v, data !! k = Some v →
    AutoTrack.last_body (fire data b) !! k = match v with VUndef => None | _ => Some v end.
Proof.
  intros Hw H1 H2 H3 k v Hk.
  destruct (fire_in_browser data b Hw H1 H2 H3) as (r & R & _ & L).
  unfold AutoTrack.last_body. rewrite R, last_snoc. simpl. by apply L.
Qed.

(** With timing on, the focus handler stores one clock reading for the field. *)
Lemma trackFieldFocus_stamps n t k s b :
  trackTiming options = true →
  let sb := trackFieldFocus config options n t k s b in
  ∃ j, ticks b ≤ j < ticks sb.2 ∧ fieldStartTimes sb.1 !! n = Some (clock b j) ∧
       lastFieldName sb.1 = Some n.
Proof.
  intros Ht. cbv zeta. unfold trackFieldFocus. rewrite Ht.
  set (st1 := if negb (hasInteracted s) then _ else _).
  assert (G1 : grows b st1.2).
  { unfold st1. destruct (hasInteracted s); simpl; [apply grows_refl|apply trackStart_grows]. }
  clearbody st1. destruct st1 as [s1 b1]. simpl in G1.
  destruct G1 as (_ & _ & C1 & T1 & _).
  unfold Date_now. cbv beta iota zeta. cbn [startTime fieldStartTimes].
  pose proof (since_fire_grows
    (λ v, <["timeSinceStart" := v]>
            (<["fieldIndex" := from_option VNum VUndef k]>
               (<["fieldType" := of_opt_str t]>
                  (<["fieldName" := VStr n]> {["eventType" := VStr "field_focus"]}))))
    (startTime s1) (set_ticks (S (ticks b1)) b1)) as G3.
  destruct G3 as (_ & _ & _ & T3 & _); [intros v; repeat split; absent_key|].
  destruct (since (startTime s1) (set_ticks (S (ticks b1)) b1)) as [v b3].
  cbn [fst snd fieldStartTimes lastFieldName ticks set_ticks] in *.
  exists (ticks b1). split; [lia|]. split; [|done].
  rewrite lookup_insert_eq. by rewrite C1.
Qed.

(** The state and the last request after a focus. *)
Lemma trackFieldFocus_last n t k s b :
  has_window b = true →
  let sb := trackFieldFocus config options n t k s b in
  lastFieldName sb.1 = Some n ∧
  AutoTrack.last_body sb.2 !! "eventType" = Some (VStr "field_focus") ∧
  AutoTrack.last_body sb.2 !! "fieldName" = Some (VStr n) ∧
  AutoTrack.last_body sb.2 !! "fieldType" = VStr <$> t ∧
  AutoTrack.last_body sb.2 !! "fieldIndex" = VNum <$> k.
Proof.
  intros Hw. cbv zeta. unfold trackFieldFocus.
  set (st1 := if negb (hasInteracted s) then _ else _).
  assert (G1 : grows b st1.2).
  { unfold st1. destruct (hasInteracted s); simpl; [apply grows_refl|apply trackStart_grows]. }
  clearbody st1. destruct st1 as [s1 b1]. simpl in G1.
  set (st2 := if trackTiming options then _ else _).
  assert (G2 : grows b1 st2.2).
  { unfold st2. destruct (trackTiming options); simpl; [apply Date_now_grows|apply grows_refl]. }
  clearbody st2. destruct st2 as [s2 b2]. simpl in G2. cbn [startTime].
  destruct G1 as (_ & W1 & _). destruct G2 as (_ & W2 & _).
  pose proof (since_has_window (startTime s2) b2) as W3.
  destruct (since (startTime s2) b2) as [v b3]. cbn [fst snd lastFieldName] in *.
  assert (W : has_window b3 = true) by congruence.
  split; [done|].
  repeat split.
  - erewrite last_body_fire; cycle 1;
      [exact W|absent_key|absent_key|absent_key|present_key|done].
  - erewrite last_body_fire; cycle 1;
      [exact W|absent_key|absent_key|absent_key|present_key|done].
  - erewrite last_body_fire; cycle 1;
      [exact W|absent_key|absent_key|absent_key|present_key|by destruct t].
  - erewrite last_body_fire; cycle 1;
      [exact W|absent_key|absent_key|absent_key|present_key|by destruct k].
Qed.

Lemma trackSubmit_events ok s b :
  (trackSubmit config options ok s b).1 = initial_state ∧
  has_window (trackSubmit config options ok s b).2 = has_window b ∧
  event_types (trackSubmit config options ok s b).2 =
    event_types b ++ (if has_window b then [VStr "submit"] else []).
Proof.
  unfold trackSubmit. rewrite pair_split. cbn [fst snd]. split; [done|].
  apply (since_then_fire config options "submit"
           (λ v, <["timeSinceStart" := v]>
                   (<["success" := VBool ok]> {["eventType" := VStr "submit"]}))).
  intros v. by rewrite !lookup_insert_ne, lookup_singleton_eq.
Qed.

End Hook.

(** X21. A submit ends the session: the state is reset whatever it
    was, and the next focus sends ['start'] again before ['field_focus']. *)
Theorem submit_opens_new_session (config : Config) (options : Options) (ok : bool)
    (n : string) (t : option string) (k : option Z) (s : FormState) (b : Browser) :
  has_window b = true →
  let sb1 := trackSubmit config options ok s b in
  let sb2 := trackFieldFocus config options n t k sb1.1 sb1.2 in
  sb1.1 = initial_state ∧
  event_types sb2.2 = event_types b ++ [VStr "submit"; VStr "start"; VStr "field_focus"].
Proof.
  intros Hw. cbv zeta.
  destruct (trackSubmit_events config options ok s b) as (S1 & W1 & E1).
  split; [done|].
  destruct (trackFieldFocus_spec config options n t k
              (trackSubmit config options ok s b).1 (trackSubmit config options ok s b).2)
    as (_ & _ & _ & E2).
  rewrite E2, E1, W1, Hw, S1, <- app_assoc. done.
Qed.

Lemma submit_opens_new_session_witness :
  let sb1 := trackSubmit site signup_form true initial_state online in
  let sb2 := trackFieldFocus site signup_form "email" None None sb1.1 sb1.2 in
  sb1.1 = initial_state ∧
  event_types sb2.2 = [VStr "submit"; VStr "start"; VStr "field_focus"].
Proof.
  exact (submit_opens_new_session site signup_form true "email" None None
           initial_state online eq_refl).
Defined.

(** X22. Right after a submit, whatever came before, neither the
    [beforeunload] listener nor a call of [trackAbandon] sends anything or
    changes the state. *)
Theorem no_abandon_after_submit (config : Config) (options : Options)
    (elements : list AutoTrack.Control) (acts : list AutoTrack.action) (ok : bool)
    (s : FormState) (b : Browser) :
  let sb := AutoTrack.lifetime config options elements (acts ++ [AutoTrack.Submit ok]) (s, b) in
  sb.1 = initial_state ∧
  handleBeforeUnload config options sb.1 sb.2 = sb ∧
  trackAbandon config options sb.1 sb.2 = sb.
Proof.
  cbv zeta. unfold AutoTrack.lifetime. rewrite foldl_app. simpl.
  set (sb0 := foldl _ _ _).
  destruct (trackSubmit_events config options ok sb0.1 sb0.2) as (S1 & _).
  destruct (trackSubmit config options ok sb0.1 sb0.2) as [s1 b1]. simpl in *. subst s1.
  done.
Qed.

(** X23. After a focus on a named field that leaves a non-zero
    start time, the [beforeunload] listener sends exactly one ['abandon']
    event naming that field, and the session state is not reset. *)
Theorem abandon_reports_last_field (config : Config) (options : Options)
    (n : string) (t : option string) (k : option Z) (s : FormState) (b : Browser) (t0 : Z) :
  has_window b = true → n ≠ "" →
  let sb1 := trackFieldFocus config options n t k s b in
  startTime sb1.1 = Some t0 → t0 ≠ 0%Z →
  let sb2 := handleBeforeUnload config options sb1.1 sb1.2 in
  sb2.1 = sb1.1 ∧
  event_types sb2.2 = event_types sb1.2 ++ [VStr "abandon"] ∧
  AutoTrack.last_body sb2.2 !! "fieldName" = Some (VStr n).
Proof.
  intros Hw Hn. cbv zeta. intros Hs Ht.
  destruct (trackFieldFocus_spec config options n t k s b) as (W1 & _ & I1 & _).
  destruct (trackFieldFocus_last config options n t k s b Hw) as (L1 & _).
  set (sb1 := trackFieldFocus config options n t k s b) in *.
  destruct sb1 as [s1 b1]. simpl in *.
  unfold handleBeforeUnload, trackAbandon. rewrite I1, Hs, L1. simpl.
  apply Z.eqb_neq in Ht. rewrite Ht. simpl.
  apply String.eqb_neq in Hn. rewrite Hn. simpl.
  split; [done|]. split.
  - rewrite (fire_event_types config options _ "abandon") by present_key.
    simpl. by rewrite W1, Hw.
  - erewrite last_body_fire; cycle 1;
      [simpl; congruence|absent_key|absent_key|absent_key|present_key|done].
Qed.

Lemma abandon_reports_last_field_witness :
  let sb1 := trackFieldFocus site signup_form "email" None None initial_state online in
  let sb2 := handleBeforeUnload site signup_form sb1.1 sb1.2 in
  sb2.1 = sb1.1 ∧
  event_types sb2.2 = event_types sb1.2 ++ [VStr "abandon"] ∧
  AutoTrack.last_body sb2.2 !! "fieldName" = Some (VStr "email").
Proof.
  apply (abandon_reports_last_field site signup_form "email" None None initial_state online 5);
    [reflexivity | discriminate | reflexivity | discriminate].
Defined.

(** X20. With field timing on, a blur that follows a focus of the
    same field reports as [timeOnField] the clock at the blur minus a clock
    reading taken by the focus handler; the field is left out when that
    reading was 0. *)
Theorem blur_reports_time_on_field (config : Config) (options : Options)
    (n : string) (t t' : option string) (k k' : option Z) (s : FormState) (b : Browser) :
  has_window b = true → trackTiming options = true →
  let sb1 := trackFieldFocus config options n t k s b in
  let sb2 := trackFieldBlur config options n t' k' sb1.1 sb1.2 in
  ∃ j, ticks b ≤ j < ticks sb1.2 ∧
       AutoTrack.last_body sb2.2 !! "timeOnField" =
         if decide (clock b j = 0%Z) then None
         else Some (VNum (clock b (ticks sb1.2) - clock b j)).
Proof.
  intros Hw Ht. cbv zeta.
  destruct (trackFieldFocus_stamps config options n t k s b Ht) as (j & Hj & Hf & _).
  destruct (trackFieldFocus_grows config options n t k s b) as (_ & W1 & C1 & _).
  set (sb1 := trackFieldFocus config options n t k s b) in *.
  exists j. split; [done|].
  unfold trackFieldBlur. rewrite Hf. rewrite !pair_split. cbn [snd].
  set (r1 := since (Some (clock b j)) sb1.2).
  assert (E1 : r1.1 = (if decide (clock b j = 0%Z) then VUndef
                       else VNum (clock b (ticks sb1.2) - clock b j)) ∧
               has_window r1.2 = true).
  { unfold r1, since, truthy, Date_now. destruct (decide (clock b j = 0%Z)) as [->|Hz].
    - simpl. by rewrite W1.
    - apply Z.eqb_neq in Hz. rewrite Hz. simpl. by rewrite C1, W1. }
  destruct E1 as [E1 W2].
  erewrite (last_body_fire config options); cycle 1.
  - by rewrite since_has_window.
  - absent_key.
  - absent_key.
  - absent_key.
  - by rewrite lookup_insert_ne, lookup_insert_eq.
  - fold r1. rewrite E1. by destruct (decide _).
Qed.

Lemma blur_reports_time_on_field_witness :
  let sb1 := trackFieldFocus site signup_form "email" None None initial_state online in
  let sb2 := trackFieldBlur site signup_form "email" None None sb1.1 sb1.2 in
  ∃ j, ticks online ≤ j < ticks sb1.2 ∧
       AutoTrack.last_body sb2.2 !! "timeOnField" =
         if decide (clock online j = 0%Z) then None
         else Some (VNum (clock online (ticks sb1.2) - clock online j)).
Proof.
  exact (blur_reports_time_on_field site signup_form "email" None None None None
           initial_state online eq_refl eq_refl).
Defined.

(** X24. The focus listener ignores a control with neither name nor
    id; for any other it reports a ['field_focus'] whose field name is the
    control's name, or its id when it has no name, whose type is the
    control's type, or its lower-cased tag name, and whose index is the
    control's position in the form, left out when it is not one of the
    form's elements. *)
Theorem focusin_reports_control (config : Config) (options : Options)
    (elements : list AutoTrack.Control) (c : AutoTrack.Control)
    (s : FormState) (b : Browser) :
  has_window b = true →
  let sb := AutoTrack.handleFocus config options elements c s b in
  (AutoTrack.name c = "" → AutoTrack.id c = "" → sb = (s, b)) ∧
  (AutoTrack.name c ≠ "" ∨ AutoTrack.id c ≠ "" →
   AutoTrack.last_body sb.2 !! "eventType" = Some (VStr "field_focus") ∧
   AutoTrack.last_body sb.2 !! "fieldName" =
     Some (VStr (if String.eqb (AutoTrack.name c) "" then AutoTrack.id c
                 else AutoTrack.name c)) ∧
   AutoTrack.last_body sb.2 !! "fieldType" =
     Some (VStr (if String.eqb (AutoTrack.type c) ""
                 then AutoTrack.toLowerCase (AutoTrack.tagName c)
                 else AutoTrack.type c)) ∧
   AutoTrack.last_body sb.2 !! "fieldIndex" = VNum <$> AutoTrack.indexOf elements c 0).
Proof.
  intros Hw. cbv zeta. unfold AutoTrack.handleFocus, truthy. split.
  - intros -> ->. done.
  - intros Hc.
    assert (E : negb (negb (String.eqb (AutoTrack.name c) "")) &&
                negb (negb (String.eqb (AutoTrack.id c) "")) = false).
    { destruct Hc as [H|H]; apply String.eqb_neq in H; rewrite H; simpl; [done|].
      by rewrite andb_false_r. }
    rewrite E.
    destruct (trackFieldFocus_last config options (AutoTrack.fieldName c)
                (Some (AutoTrack.fieldType c)) (AutoTrack.indexOf elements c 0) s b Hw)
      as (_ & A & B & C & D).
    split; [done|]. split; [|split; [|done]].
    + rewrite B. unfold AutoTrack.fieldName, truthy.
      by destruct (String.eqb (AutoTrack.name c) "").
    + rewrite C. unfold AutoTrack.fieldType, truthy. simpl.
      by destruct (String.eqb (AutoTrack.type c) "").
Qed.

Lemma focusin_reports_control_witness :
  let fields := [AutoTrack.mkControl 3 "name" "" "text" "INPUT"; AutoTrack.email_input] in
  let sb := AutoTrack.handleFocus site signup_form fields AutoTrack.email_input initial_state online in
  AutoTrack.last_body sb.2 !! "eventType" = Some (VStr "field_focus") ∧
  AutoTrack.last_body sb.2 !! "fieldName" = Some (VStr "email") ∧
  AutoTrack.last_body sb.2 !! "fieldType" = Some (VStr "input") ∧
  AutoTrack.last_body sb.2 !! "fieldIndex" = Some (VNum 1).
Proof.
  refine (proj2 (focusin_reports_control site signup_form
                   [AutoTrack.mkControl 3 "name" "" "text" "INPUT"; AutoTrack.email_input]
                   AutoTrack.email_input initial_state online eq_refl) _).
  right. discriminate.
Defined.

(** [indexOf] answers the first position holding the control, and [None]
    exactly when no position does. *)
Lemma indexOf_first_position (fields : list AutoTrack.Control) (c : AutoTrack.Control) :
  match AutoTrack.indexOf fields c 0 with
  | Some z => ∃ i e, z = Z.of_nat i ∧ fields !! i = Some e ∧
                     AutoTrack.node e = AutoTrack.node c ∧
                     Forall (λ e', AutoTrack.node e' ≠ AutoTrack.node c) (take i fields)
  | None => Forall (λ e', AutoTrack.node e' ≠ AutoTrack.node c) fields
  end.
Proof.
  assert (G : ∀ k, match AutoTrack.indexOf fields c k with
                   | Some z => ∃ i e, z = (k + Z.of_nat i)%Z ∧ fields !! i = Some e ∧
                                      AutoTrack.node e = AutoTrack.node c ∧
                                      Forall (λ e', AutoTrack.node e' ≠ AutoTrack.node c)
                                        (take i fields)
                   | None => Forall (λ e', AutoTrack.node e' ≠ AutoTrack.node c) fields
                   end).
  { induction fields as [|f fields IH]; intros k; simpl; [constructor|].
    destruct (Nat.eqb (AutoTrack.node f) (AutoTrack.node c)) eqn:E.
    - apply Nat.eqb_eq in E. exists 0, f. simpl. repeat split; [lia|done|constructor].
    - apply Nat.eqb_neq in E. specialize (IH (k + 1)%Z).
      destruct (AutoTrack.indexOf fields c (k + 1)) as [z|].
      + destruct IH as (i & e & -> & L & N & F). exists (S i), e. simpl.
        repeat split; [lia|done|done|by constructor].
      + by constructor. }
  specialize (G 0%Z). destruct (AutoTrack.indexOf fields c 0); [|done].
  destruct G as (i & e & -> & G). exists i, e. by rewrite Z.add_0_l.
Qed.


End FormsExtra.

(** ** More on web vitals *)

Module VitalsExtra.
Import JS Http Vitals HttpProps.

(** X25. [trackVital] sends nothing without browser globals; in a
    browser it sends one keep-alive POST to the vitals endpoint of the
    configured host (the default host when none is set) whose body holds the
    website, metric, value, rating, page URL and path, and [delta], [id] and
    [navigationType] exactly when the caller supplied them. *)
Theorem trackVital_request (config : Config) (data : WebVitalData) (b : Browser) :
  (has_window b = false → (trackVital config data b).2 = b) ∧
  (has_window b = true →
   ∃ r, requests (trackVital config data b).2 = requests b ++ [r] ∧
        url r = VitalsInit.vitals_endpoint config ∧ method r = "POST" ∧ keepalive r = true ∧
        body r !! "website" = Some (VStr (websiteId config)) ∧
        body r !! "metric" = Some (VStr (metric data)) ∧
        body r !! "value" = Some (VNum (value data)) ∧
        body r !! "rating" = Some (VStr (rating data)) ∧
        body r !! "url" = Some (VStr (href b)) ∧
        body r !! "path" = Some (VStr (pathname b)) ∧
        body r !! "delta" = VNum <$> delta data ∧
        body r !! "id" = VStr <$> Vitals.id data ∧
        body r !! "navigationType" = VStr <$> navigationType data).
Proof.
  unfold trackVital. rewrite async_world. split; intros Hw; rewrite Hw; simpl; [done|].
  unfold try_post_or_log, fetch_post. eexists.
  split; [by destruct (network b (length (requests b)))|].
  cbn [url method keepalive body]. rewrite !FormsExtra.json_lookup.
  repeat split; try done;
    repeat (rewrite lookup_insert_ne by done);
    rewrite ?lookup_insert_eq, ?lookup_singleton_eq; try done.
  - by destruct (delta data).
  - by destruct (Vitals.id data).
  - by destruct (navigationType data).
Qed.



End VitalsExtra.
